(** * Visual extraction and grounding pipeline of the IDP project

    A shallow embedding of the four Streamlit front ends

    - [src/gemini_Testing.py]        (Gemini, JSON + bounding boxes),
    - [src/surya ocr/claude_testing.py] (Groq, JSON + bounding boxes),
    - [src/LLM.py]                   (OpenRouter, text only),
    - [src/openAI_Testing.py]        (OpenAI, text only),

    and of the properties their specification states about them.

    What is Python's or a library's, and not this repository's, is a
    parameter of the development: the JSON decoder [json.loads], PIL's
    rasteriser [ImageDraw.rectangle] and [base64.b64encode].  The model's
    reply is an input of the button handlers. *)

From Stdlib Require Import QArith ZArith String Ascii.
From Stdlib Require Import PrimFloat.
From stdpp Require Import gmap strings list.

Local Open Scope Z_scope.

(** ** Values produced by [json.loads]

    A decoded document is a Python object: [None], a [bool], an [int], a
    [float], a [str], a [list] or a [dict] with [str] keys.  A finite float
    is modelled by the rational it denotes, and [/] and [*] by the exact
    quotient and product, kept in lowest terms so that equal numbers are
    equal terms; CPython rounds each of them to binary64, and [scale64]
    below is that computation, used to check the sample coordinates.  What
    only binary64 has is left out: the values [NaN] and [Infinity], which
    [json.loads] also accepts, the [OverflowError] of [int / 1000] on an
    integer beyond the range of a float, and rounding; statements that
    depend on it are made on integers of bounded size. *)

#[warnings="-register-all"]
Inductive json : Type :=
  | JNull
  | JBool (b : bool)
  | JInt (z : Z)
  | JFloat (q : Q)
  | JStr (s : string)
  | JArr (l : list json)
  | JObj (m : gmap string json).

(** ** Exceptions and results *)

Inductive exn : Type :=
  | JSONDecodeError (msg : string)
  | TypeError
  | AttributeError
  | ValueError
  | ReferenceError.

Inductive result (A : Type) : Type :=
  | Ok (a : A)
  | Raise (e : exn).
Arguments Ok {A} a.
Arguments Raise {A} e.

#[global] Instance result_ret : MRet result := fun A a => Ok a.
#[global] Instance result_bind : MBind result := fun A B f r =>
  match r with
  | Ok a => f a
  | Raise e => Raise e
  end.

(** ** The Python operations the drawing code applies to decoded values *)

(** [d.get(key, dflt)]: only a [dict] has the method. *)
Definition py_get (d : json) (key : string) (dflt : json) : result json :=
  match d with
  | JObj m => Ok (default dflt (m !! key))
  | _ => Raise AttributeError
  end.

(** Truth value of an object, as [if box] takes it. *)
Definition py_bool (j : json) : bool :=
  match j with
  | JNull => false
  | JBool b => b
  | JInt z => negb (z =? 0)
  | JFloat q => negb (Qeq_bool q 0)
  | JStr s => negb (String.eqb s "")
  | JArr l => negb (Nat.eqb (length l) 0)
  | JObj m => negb (Nat.eqb (size m) 0)
  end.

(** [len(x)]: defined on [list], [str] and [dict]; a character of a [str]
    is one [ascii]. *)
Definition py_len (j : json) : result nat :=
  match j with
  | JArr l => Ok (length l)
  | JStr s => Ok (String.length s)
  | JObj m => Ok (size m)
  | _ => Raise TypeError
  end.

(** [iter(x)], as [for item in x] and tuple unpacking use it: the elements
    of a [list], the characters of a [str], the keys of a [dict]. *)
Definition py_iter (j : json) : result (list json) :=
  match j with
  | JArr l => Ok l
  | JStr s => Ok ((fun c => JStr (String c EmptyString)) <$> list_ascii_of_string s)
  | JObj m => Ok (JStr <$> (map_to_list m).*1)
  | _ => Raise TypeError
  end.

(** The number an operand of [/] or [*] stands for: [bool] is a subclass of
    [int]; anything else is a [TypeError]. *)
Definition py_number (j : json) : result Q :=
  match j with
  | JInt z => Ok (inject_Z z)
  | JFloat q => Ok q
  | JBool b => Ok (inject_Z (if b then 1 else 0))
  | _ => Raise TypeError
  end.

(** Float division and multiplication, results in lowest terms. *)
Definition fdiv (a b : Q) : Q := Qred (a / b).
Definition fmul (a b : Q) : Q := Qred (a * b).

(** [min(a, b)] keeps [a] unless [b < a]; [max(a, b)] keeps [a] unless
    [b > a].  On operands that are not numbers Python's [min] and [max]
    either raise [TypeError] themselves or return an operand on which the
    division that follows raises it: the model raises it here. *)
Definition py_min (a b : json) : result json :=
  x ← py_number a; y ← py_number b;
  Ok (if Qle_bool x y then a else b).
Definition py_max (a b : json) : result json :=
  x ← py_number a; y ← py_number b;
  Ok (if Qle_bool y x then a else b).

(** The same division and multiplication in binary64, as CPython computes
    them, to check the rational model on the sample coordinates. *)
Definition scale64 (value dim : float) : float := (value / 1000 * dim)%float.

(** ** Coordinate normalisation *)

(** The two files that draw boxes. *)
Inductive provider : Type := Gemini | Groq.

(** The argument [[x1, y1, x2, y2]] of [draw.rectangle]. *)
Record rect : Type := Rect { x1 : Q; y1 : Q; x2 : Q; y2 : Q }.

(** The test Pillow (9.5 and later) makes before it draws a rectangle:
    [x1 >= x0] and [y1 >= y0], or [draw.rectangle] raises [ValueError]. *)
Definition accepted (xy : rect) : bool :=
  Qle_bool (x1 xy) (x2 xy) && Qle_bool (y1 xy) (y2 xy).

(** [ymin, xmin, ymax, xmax = box] *)
Definition unpack4 (box : json) : result (json * json * json * json) :=
  l ← py_iter box;
  match l with
  | [ymin; xmin; ymax; xmax] => Ok (ymin, xmin, ymax, xmax)
  | _ => Raise ValueError
  end.

(** [ymin, ymax = min(ymin, ymax), max(ymin, ymax)]: the "Ensure correct
    order" step of gemini_Testing.py, lines 47-49; claude_testing.py has no
    such lines. *)
Definition ensure_order (p : provider) (lo hi : json) : result (json * json) :=
  match p with
  | Gemini => a ← py_min lo hi; b ← py_max lo hi; Ok (a, b)
  | Groq => Ok (lo, hi)
  end.

(** [(value / 1000) * dim] *)
Definition scale (value : json) (dim : Z) : result Q :=
  v ← py_number value;
  Ok (fmul (fdiv v (inject_Z 1000)) (inject_Z dim)).

(** Lines 45-54 of gemini_Testing.py and 45-50 of claude_testing.py: from
    the box to the rectangle handed to [draw.rectangle]. *)
Definition normalize (p : provider) (width height : Z) (box : json) : result rect :=
  '(ymin, xmin, ymax, xmax) ← unpack4 box;
  '(ymin, ymax) ← ensure_order p ymin ymax;
  '(xmin, xmax) ← ensure_order p xmin xmax;
  x1 ← scale xmin width;
  y1 ← scale ymin height;
  x2 ← scale xmax width;
  y2 ← scale ymax height;
  Ok (Rect x1 y1 x2 y2).

(** The body of the loop up to the call of [draw.rectangle]: the rectangle
    to draw for [item], or [None] when the item is skipped. *)
Definition item_rect (p : provider) (width height : Z) (item : json)
  : result (option rect) :=
  box ← py_get item "box_2d" JNull;
  if py_bool box then
    n ← py_len box;
    if Nat.eqb n 4 then r ← normalize p width height box; Ok (Some r)
    else Ok None
  else Ok None.

(** ** Images, the screen and the state of one session

    A PIL image is a mutable object: [ImageDraw.Draw(image)] draws into the
    very buffer of [image], and [image.copy()] allocates a new object.  The
    store holds the image objects; a reference is an index into it. *)

Definition loc : Type := nat.

Section Pipeline.

(** The pixel buffer and PIL's rasteriser behind [draw.rectangle(xy,
    outline="red", width=3)], a function of the buffer and of the four
    coordinates of a rectangle it accepts. *)
Context {pixbuf : Type}.
Variable rectangle : pixbuf -> rect -> pixbuf.

(** Python's [json.loads]. *)
Variable json_loads : string -> result json.

Record image : Type := Image { im_width : Z; im_height : Z; pixels : pixbuf }.

(** What a Streamlit call puts on the page.  [st.image] serialises the
    image when it is called, so the widget holds its value at that time;
    [st_error_exn e] is [st.error(f"Error: {e}")].  Headings and dividers
    are left out. *)
Inductive widget : Type :=
  | st_image (im : image)
  | st_json (body : json)
  | st_download_button (data : string)
  | st_warning (msg : string)
  | st_error (msg : string)
  | st_error_exn (e : exn)
  | st_code (body : string).

(** The state during one run of a handler: the image objects, and what the
    run has put on the page so far. *)
Record world : Type := World { heap : list image; screen : list widget }.

(** State and exceptions. *)
Definition M (A : Type) : Type := world -> result A * world.

#[global] Instance M_ret : MRet M := fun A a w => (Ok a, w).
#[global] Instance M_bind : MBind M := fun A B f m w =>
  match m w with
  | (Ok a, w') => f a w'
  | (Raise e, w') => (Raise e, w')
  end.

Definition lift {A} (r : result A) : M A := fun w => (r, w).

(** [try: body except Exception as e: handler(e)] *)
Definition try_except {A} (body : M A) (handler : exn -> M A) : M A := fun w =>
  match body w with
  | (Ok a, w') => (Ok a, w')
  | (Raise e, w') => handler e w'
  end.

(** [for x in l: body(x)] *)
Fixpoint for_each {A} (l : list A) (body : A -> M unit) : M unit :=
  match l with
  | [] => mret tt
  | x :: l' => body x ;; for_each l' body
  end.

(** A reference into the store; Python has no dangling ones. *)
Definition deref (im : loc) : M image := fun w =>
  match heap w !! im with
  | Some i => (Ok i, w)
  | None => (Raise ReferenceError, w)
  end.

(** [image.size] *)
Definition Image_size (im : loc) : M (Z * Z) :=
  i ← deref im; mret (im_width i, im_height i).

(** A new object, and an update of an object in place. *)
Definition alloc (i : image) : M loc := fun w =>
  (Ok (length (heap w)), World (heap w ++ [i]) (screen w)).
Definition store (im : loc) (i : image) : M unit := fun w =>
  (Ok tt, World (<[im := i]> (heap w)) (screen w)).

(** [image.copy()]: a new object with a buffer of its own. *)
Definition Image_copy (im : loc) : M loc :=
  i ← deref im; alloc i.

(** [draw.rectangle([x1, y1, x2, y2], outline="red", width=3)] on the
    image [draw] was made from: an inverted rectangle is refused, any other
    is drawn into the buffer, in place. *)
Definition draw_rectangle (im : loc) (xy : rect) : M unit :=
  if accepted xy then
    i ← deref im;
    store im (Image (im_width i) (im_height i) (rectangle (pixels i) xy))
  else lift (Raise ValueError).

(** A Streamlit call. *)
Definition st (x : widget) : M unit := fun w =>
  (Ok tt, World (heap w) (screen w ++ [x])).

(** ** [draw_boxes_on_image] (both files) *)

(** One turn of the loop. *)
Definition draw_item (p : provider) (image : loc) (width height : Z)
    (item : json) : M unit :=
  r ← lift (item_rect p width height item);
  match r with
  | Some xy => draw_rectangle image xy
  | None => mret tt
  end.

Definition draw_boxes_on_image (p : provider) (image : loc) (json_response : json) : M loc :=
  '(width, height) ← Image_size image;
  layout_items ← lift (py_get json_response "layout" (JArr []));
  items ← lift (py_iter layout_items);
  for_each items (draw_item p image width height);;
  mret image.

(** ** The button handlers *)

(** gemini_Testing.py, lines 108-142, from [response.text] on. *)
Definition gemini_extract_and_visualize (image : loc) (response_text : string) : M unit :=
  try_except
    (if negb (String.eqb response_text "") then
       data ← lift (json_loads response_text);
       annotated_image ← Image_copy image;
       final_image ← draw_boxes_on_image Gemini annotated_image data;
       shown ← deref final_image;
       st (st_image shown);;
       clean_display ← lift (py_get data "structured_data" (JObj ∅));
       st (st_json clean_display);;
       st (st_download_button response_text)
     else
       st (st_warning "No response generated."))
    (fun e => st (st_error_exn e)).

(** claude_testing.py, lines 93-137, from [content] on. *)
Definition groq_extract_and_visualise (image : loc) (content : string) : M unit :=
  try_except
    (data ← lift (json_loads content);
     annotated_image ← Image_copy image;
     final_image ← draw_boxes_on_image Groq annotated_image data;
     shown ← deref final_image;
     st (st_image shown);;
     clean_display ← lift (py_get data "structured_data" (JObj ∅));
     st (st_json clean_display);;
     st (st_download_button content))
    (fun e =>
       match e with
       | JSONDecodeError _ =>
           st (st_error "Groq returned invalid JSON. Try again.");;
           st (st_code content)
       | _ => st (st_error_exn e)
       end).

Definition extract_and_visualize (p : provider) : loc -> string -> M unit :=
  match p with
  | Gemini => gemini_extract_and_visualize
  | Groq => groq_extract_and_visualise
  end.

End Pipeline.

(** ** The image sent to the chat models *)

(** The object [st.file_uploader] returns. *)
Record UploadedFile : Type := { name : string; getvalue : list Byte.byte }.

(** The three files that send the image inside a data URL; gemini_Testing.py
    hands the PIL image to its SDK instead. *)
Inductive integration : Type := OpenRouter | OpenAI | GroqChat.

(** The [type=[...]] argument of each [st.file_uploader]. *)
Definition uploader_types (i : integration) : list string :=
  match i with
  | OpenRouter => ["jpg"; "png"; "jpeg"; "webp"]
  | OpenAI => ["png"; "jpg"; "jpeg"]
  | GroqChat => ["jpg"; "png"; "jpeg"; "webp"]
  end.

(** One element of the [content] list of the user message. *)
Inductive content_part : Type :=
  | text_part (text : string)
  | image_url_part (url : string)
  | input_text_part (text : string)
  | input_image_part (image_url : string).

Section Transport.

(** [base64.b64encode(b).decode("utf-8")] *)
Variable b64encode : list Byte.byte -> string.

Definition encode_image (uploaded_file : UploadedFile) : string :=
  b64encode (getvalue uploaded_file).

(** The [content] of the request: LLM.py lines 61-118, openAI_Testing.py
    lines 61-70, claude_testing.py lines 101-107. *)
Definition user_content (i : integration) (prompt : string)
    (uploaded_file : UploadedFile) : list content_part :=
  let base64_image := encode_image uploaded_file in
  match i with
  | OpenRouter =>
      [text_part prompt; image_url_part ("data:image/jpeg;base64," ++ base64_image)]
  | OpenAI =>
      [input_text_part prompt; input_image_part ("data:image/jpeg;base64," ++ base64_image)]
  | GroqChat =>
      [text_part prompt; image_url_part ("data:image/jpeg;base64," ++ base64_image)]
  end.

End Transport.

(** The URLs of the image parts of a request. *)
Definition image_urls (parts : list content_part) : list string :=
  omap (fun part =>
          match part with
          | image_url_part url | input_image_part url => Some url
          | _ => None
          end) parts.

(** The media type a data URL declares: the text between [data:] and the
    first [;] or [,] (RFC 2397). *)
Fixpoint until_separator (s : string) : string :=
  match s with
  | EmptyString => EmptyString
  | String c rest =>
      if (Ascii.eqb c ";" || Ascii.eqb c ",")%bool then EmptyString
      else String c (until_separator rest)
  end.

Definition declared_media_type (url : string) : option string :=
  if String.eqb (String.substring 0 5 url) "data:"
  then Some (until_separator (String.substring 5 (String.length url - 5) url))
  else None.

(** ** Summaries used to state the properties *)

(** The items the loop of [draw_boxes_on_image] runs over. *)
Definition layout_of (json_response : json) : result (list json) :=
  layout_items ← py_get json_response "layout" (JArr []);
  py_iter layout_items.

(** The rectangles the loop draws, in order, and how the loop ends. *)
Fixpoint drawn (p : provider) (width height : Z) (items : list json)
  : list rect * result unit :=
  match items with
  | [] => ([], Ok tt)
  | item :: rest =>
      match item_rect p width height item with
      | Raise e => ([], Raise e)
      | Ok None => drawn p width height rest
      | Ok (Some xy) =>
          if accepted xy
          then let '(rs, o) := drawn p width height rest in (xy :: rs, o)
          else ([], Raise ValueError)
      end
  end.

(** An image with rectangles drawn on it one after the other. *)
Definition paint {pixbuf} (rectangle : pixbuf -> rect -> pixbuf)
    (i : image) (rs : list rect) : image :=
  Image (im_width i) (im_height i) (fold_left rectangle rs (pixels i)).

(** The copy after [draw_boxes_on_image] has run on it, and how the call
    ends. *)
Definition annotate {pixbuf} (rectangle : pixbuf -> rect -> pixbuf)
    (p : provider) (i : image) (json_response : json) : image * result unit :=
  match layout_of json_response with
  | Raise e => (i, Raise e)
  | Ok items =>
      let '(rs, o) := drawn p (im_width i) (im_height i) items in
      (paint rectangle i rs, o)
  end.

(** What the [except] clauses of the two handlers put on the page. *)
Definition error_page {pixbuf} (p : provider) (raw : string) (e : exn)
  : list (@widget pixbuf) :=
  match p, e with
  | Groq, JSONDecodeError _ =>
      [st_error "Groq returned invalid JSON. Try again."; st_code raw]
  | _, _ => [st_error_exn e]
  end.

(** What a handler puts on the page once the reply is decoded, given the
    outcome of the drawing. *)
Definition page {pixbuf} (p : provider) (raw : string) (data : json)
    (r : @image pixbuf * result unit) : list widget :=
  match r.2 with
  | Raise e => error_page p raw e
  | Ok _ =>
      match py_get data "structured_data" (JObj ∅) with
      | Ok clean_display =>
          [st_image r.1; st_json clean_display; st_download_button raw]
      | Raise e => st_image r.1 :: error_page p raw e
      end
  end.

(** Widgets that show a result of the extraction. *)
Definition shows_result {pixbuf} (x : @widget pixbuf) : bool :=
  match x with
  | st_image _ | st_json _ | st_download_button _ => true
  | _ => false
  end.

(** A layout entry the specification calls invalid: an object without
    [box_2d], or whose [box_2d] has a length other than 4. *)
Definition invalid_entry (item : json) : Prop :=
  exists m, item = JObj m /\
    (m !! "box_2d" = None \/
     exists box n, m !! "box_2d" = Some box /\ py_len box = Ok n /\ n <> 4%nat).



(** An [int], a [float] or a [bool]. *)
Definition is_number (j : json) : bool :=
  match py_number j with Ok _ => true | Raise _ => false end.

(** ** Sample inputs *)

(** A canvas that records the calls of [draw.rectangle]. *)
Definition canvas : Type := list rect.
Definition record_rectangle (c : canvas) (xy : rect) : canvas := c ++ [xy].

(** A session with one loaded image of the given size. *)
Definition session (width height : Z) : @world canvas :=
  World [Image width height []] [].

Definition dq : string := String "034" EmptyString.
Definition quoted (s : string) : string := dq ++ s ++ dq.

(** [{"a":1}] *)
Definition raw_a1 : string := "{" ++ quoted "a" ++ ":1}".
Definition data_a1 : json := JObj {[ "a" := JInt 1 ]}.

(** [{"structured_data":{"invoice":"A1"},
      "layout":[{"text":"Invoice","box_2d":[0,0,100,500]}]}] *)
Definition raw_invoice : string :=
  "{" ++ quoted "structured_data" ++ ":{" ++ quoted "invoice" ++ ":" ++ quoted "A1"
  ++ "}," ++ quoted "layout" ++ ":[{" ++ quoted "text" ++ ":" ++ quoted "Invoice"
  ++ "," ++ quoted "box_2d" ++ ":[0,0,100,500]}]}".
Definition entry_invoice : json :=
  JObj (<["text" := JStr "Invoice"]>
        {[ "box_2d" := JArr [JInt 0; JInt 0; JInt 100; JInt 500] ]}).
Definition data_invoice : json :=
  JObj (<["structured_data" := JObj {[ "invoice" := JStr "A1" ]}]>
        {[ "layout" := JArr [entry_invoice] ]}).

(** A reply that wraps an empty object in prose. *)
Definition raw_prose : string := "Here is the JSON: {}".

(** What [json.loads] returns on the sample texts; on the prose reply, and
    on [not json], it raises at the first character. *)
Definition expecting_value : string := "Expecting value: line 1 column 1 (char 0)".
Definition sample_loads (s : string) : result json :=
  if String.eqb s raw_a1 then Ok data_a1
  else if String.eqb s raw_invoice then Ok data_invoice
  else if String.eqb s "{}" then Ok (JObj ∅)
  else Raise (JSONDecodeError expecting_value).

(** A box whose corners are swapped vertically. *)
Definition swapped_box : json := JArr [JInt 100; JInt 0; JInt 0; JInt 500].

(** [{"text":"X"}] *)
Definition entry_without_box : json := JObj {[ "text" := JStr "X" ]}.

(** [{"box_2d":[100,0,0,500]}], and [{"text":"T","box_2d":[0,0,"a",1]}]. *)
Definition entry_swapped : json := JObj {[ "box_2d" := swapped_box ]}.

(** ** The start of the OpenAI front end *)

(** What openAI_Testing.py puts on the page before the uploader. *)
Inductive startup_widget : Type :=
  | sw_error (msg : string)
  | sw_success (msg : string).

(** [s[n:]] for [0 <= n]. *)
Fixpoint drop_string (n : nat) (s : string) : string :=
  match n, s with
  | O, _ => s
  | S n', String _ s' => drop_string n' s'
  | S _, EmptyString => EmptyString
  end.

(** [api_key[-4:]]: the slice starts at [len - 4], or at 0 when the string
    is shorter. *)
Definition last4 (api_key : string) : string :=
  drop_string (String.length api_key - 4) api_key.

(** openAI_Testing.py, lines 11-27: [os.getenv] gives [None] or a string;
    the second component tells whether the script goes on ([st.stop()] was
    not called). *)
Definition openai_startup (api_key : option string) : list startup_widget * bool :=
  match api_key with
  | None => ([sw_error "OPENAI_API_KEY not found in .env file"], false)
  | Some key =>
      if String.eqb key ""
      then ([sw_error "OPENAI_API_KEY not found in .env file"], false)
      else ([sw_success ("API Key Loaded (ends with ..." ++ last4 key ++ ")")], true)
  end.

(** ** More summaries *)

(** A number of the scale 0..1000 the prompts ask for. *)
Definition within_scale (j : json) : bool :=
  match py_number j with
  | Ok q => Qle_bool 0 q && Qle_bool q (inject_Z 1000)
  | Raise _ => false
  end.

(** The data of a data URL: what follows the first comma (RFC 2397). *)
Fixpoint after_comma (url : string) : string :=
  match url with
  | EmptyString => EmptyString
  | String c rest => if Ascii.eqb c "," then rest else after_comma rest
  end.

(** A codec with which to run the transport code: one character per byte. *)
Definition sample_encode : list Byte.byte -> string := string_of_list_byte.
Definition sample_decode : string -> list Byte.byte := list_byte_of_string.

(** A layout entry whose [box_2d] is a number, and a second invoice entry. *)
Definition entry_number_box : json := JObj {[ "box_2d" := JInt 7 ]}.
Definition entry_total : json :=
  JObj {[ "box_2d" := JArr [JInt 800; JInt 500; JInt 850; JInt 600] ]}.

(** The invoice document with a second entry whose box is a number. *)
Definition data_bad_entry : json :=
  JObj (<["structured_data" := JObj {[ "invoice" := JStr "A1" ]}]>
        {[ "layout" := JArr [entry_invoice; entry_number_box] ]}).

(** A decoder that returns the same document whatever the text. *)
Definition always (data : json) (s : string) : result json := Ok data.

(** * Properties *)

(** ** Arithmetic of the scaling *)

#[local] Arguments ensure_order : simpl never.
#[local] Arguments scale : simpl never.
#[local] Arguments fmul : simpl never.
#[local] Arguments fdiv : simpl never.

Lemma fdiv_correct (a b : Q) : (fdiv a b == a / b)%Q.
Proof. apply Qred_correct. Qed.

Lemma fmul_correct (a b : Q) : (fmul a b == a * b)%Q.
Proof. apply Qred_correct. Qed.

(** On the coordinates of the sample inputs binary64 gives the very numbers
    of the rational model: no rounding occurs. *)
Lemma scale64_samples :
  scale64 0 1000 = 0%float /\ scale64 500 1000 = 500%float /\
  scale64 0 2000 = 0%float /\ scale64 100 2000 = 200%float /\
  scale64 500 2000 = 1000%float /\ scale64 100 1000 = 100%float.
Proof. repeat split; reflexivity. Qed.

(** Scaling by a non-negative dimension keeps the order. *)
Lemma scaling_monotone (x y : Q) (dim : Z) :
  (x <= y)%Q -> 0 <= dim ->
  (fmul (fdiv x (inject_Z 1000)) (inject_Z dim)
   <= fmul (fdiv y (inject_Z 1000)) (inject_Z dim))%Q.
Proof.
  intros Hxy Hdim.
  rewrite !fmul_correct, !fdiv_correct.
  apply Qmult_le_compat_r.
  - unfold Qdiv. apply Qmult_le_compat_r; [exact Hxy | ].
    vm_compute. discriminate.
  - change 0%Q with (inject_Z 0). rewrite <- Zle_Qle. exact Hdim.
Qed.

Lemma scale_number (value : json) (v : Q) (dim : Z) :
  py_number value = Ok v ->
  scale value dim = Ok (fmul (fdiv v (inject_Z 1000)) (inject_Z dim)).
Proof. intros H. unfold scale. rewrite H. reflexivity. Qed.

(** What the reordering of the Gemini file returns on two numbers. *)
Lemma ensure_order_gemini (lo hi : json) (x y : Q) :
  py_number lo = Ok x -> py_number hi = Ok y ->
  exists a b u v,
    ensure_order Gemini lo hi = Ok (a, b) /\
    py_number a = Ok u /\ py_number b = Ok v /\ (u <= v)%Q.
Proof.
  intros Hx Hy. unfold ensure_order, py_min, py_max.
  rewrite Hx, Hy. cbn.
  destruct (Qle_bool x y) eqn:Exy.
  - apply Qle_bool_iff in Exy.
    destruct (Qle_bool y x) eqn:Eyx.
    + apply Qle_bool_iff in Eyx. exists lo, lo, x, x. repeat split; try done.
      apply Qle_refl.
    + exists lo, hi, x, y. done.
  - assert (Hlt : (y < x)%Q).
    { apply Qnot_le_lt. intros Hle. apply Qle_bool_iff in Hle. congruence. }
    assert (Eyx : Qle_bool y x = true) by (apply Qle_bool_iff, Qlt_le_weak, Hlt).
    rewrite Eyx. exists hi, lo, y, x. repeat split; try done.
    apply Qlt_le_weak, Hlt.
Qed.

(** gemini_Testing.py: on every box of four numbers, in any corner order,
    the rectangle handed to [draw.rectangle] has [x1 <= x2] and
    [y1 <= y2]. *)
Lemma normalize_gemini_ordered (width height : Z) (ymin xmin ymax xmax : json) :
  is_number ymin = true -> is_number xmin = true ->
  is_number ymax = true -> is_number xmax = true ->
  0 <= width -> 0 <= height ->
  exists r, normalize Gemini width height (JArr [ymin; xmin; ymax; xmax]) = Ok r /\
            (x1 r <= x2 r)%Q /\ (y1 r <= y2 r)%Q.
Proof.
  unfold is_number. intros H1 H2 H3 H4 Hw Hh.
  destruct (py_number ymin) as [qa|] eqn:Ea; [|discriminate].
  destruct (py_number xmin) as [qb|] eqn:Eb; [|discriminate].
  destruct (py_number ymax) as [qc|] eqn:Ec; [|discriminate].
  destruct (py_number xmax) as [qd|] eqn:Ed; [|discriminate].
  destruct (ensure_order_gemini ymin ymax qa qc Ea Ec)
    as (ylo & yhi & u & v & Ey & Eu & Ev & Huv).
  destruct (ensure_order_gemini xmin xmax qb qd Eb Ed)
    as (xlo & xhi & u' & v' & Ex & Eu' & Ev' & Huv').
  unfold normalize. cbn. rewrite Ey. cbn. rewrite Ex. cbn.
  rewrite (scale_number xlo u' width Eu'). cbn.
  rewrite (scale_number ylo u height Eu). cbn.
  rewrite (scale_number xhi v' width Ev'). cbn.
  rewrite (scale_number yhi v height Ev). cbn.
  eexists. split; [reflexivity|]. cbn.
  split; apply scaling_monotone; assumption.
Qed.

(** The same for integer coordinates in the range 0..1000 the prompt asks
    for. *)
Lemma normalize_gemini_ordered_int (width height ymin xmin ymax xmax : Z) :
  0 <= ymin <= 1000 -> 0 <= xmin <= 1000 ->
  0 <= ymax <= 1000 -> 0 <= xmax <= 1000 ->
  0 <= width -> 0 <= height ->
  exists r, normalize Gemini width height
              (JArr [JInt ymin; JInt xmin; JInt ymax; JInt xmax]) = Ok r /\
            (x1 r <= x2 r)%Q /\ (y1 r <= y2 r)%Q.
Proof.
  intros _ _ _ _ Hw Hh. apply normalize_gemini_ordered; done.
Qed.

(** claude_testing.py scales the corners as they come. *)
Lemma normalize_groq (width height : Z) (ymin xmin ymax xmax : json) (a b c d : Q) :
  py_number ymin = Ok a -> py_number xmin = Ok b ->
  py_number ymax = Ok c -> py_number xmax = Ok d ->
  normalize Groq width height (JArr [ymin; xmin; ymax; xmax]) =
    Ok (Rect (fmul (fdiv b (inject_Z 1000)) (inject_Z width))
             (fmul (fdiv a (inject_Z 1000)) (inject_Z height))
             (fmul (fdiv d (inject_Z 1000)) (inject_Z width))
             (fmul (fdiv c (inject_Z 1000)) (inject_Z height))).
Proof.
  intros Ha Hb Hc Hd. unfold normalize, ensure_order. cbn.
  rewrite (scale_number _ _ _ Hb). cbn.
  rewrite (scale_number _ _ _ Ha). cbn.
  rewrite (scale_number _ _ _ Hd). cbn.
  rewrite (scale_number _ _ _ Hc). reflexivity.
Qed.

(** C1 (the claim holds for gemini_Testing.py and fails for
    claude_testing.py).  On a 1000 x 2000 image and the box
    [[100, 0, 0, 500]], whose corners are swapped vertically and whose values
    all lie in 0..1000, the Gemini file reorders the corners and hands
    [draw.rectangle] a rectangle with [x1 <= x2] and [y1 <= y2]; the Groq
    file has no reordering step and hands it [y1 = 200 > y2 = 0]. *)
Theorem C1_groq_does_not_reorder :
  normalize Gemini 1000 2000 swapped_box = Ok (Rect 0 0 500 200) /\
  normalize Groq 1000 2000 swapped_box = Ok (Rect 0 200 500 0) /\
  ~ (forall (p : provider) (ymin xmin ymax xmax : Z) (r : rect),
       0 <= ymin <= 1000 -> 0 <= xmin <= 1000 ->
       0 <= ymax <= 1000 -> 0 <= xmax <= 1000 ->
       normalize p 1000 2000 (JArr [JInt ymin; JInt xmin; JInt ymax; JInt xmax]) = Ok r ->
       (x1 r <= x2 r)%Q /\ (y1 r <= y2 r)%Q).
Proof.
  split; [reflexivity|]. split; [reflexivity|].
  intros H.
  destruct (H Groq 100 0 0 500 (Rect 0 200 500 0)) as [_ Hy];
    try lia; [reflexivity|].
  cbn in Hy. vm_compute in Hy. apply Hy. reflexivity.
Qed.

(** ** The drawing loop and the store *)

Section Drawing.

Context {pixbuf : Type}.
Variable rectangle : pixbuf -> rect -> pixbuf.

Lemma paint_nil (i : @image pixbuf) : paint rectangle i [] = i.
Proof. destruct i; reflexivity. Qed.

Lemma paint_cons (i : @image pixbuf) (xy : rect) (rs : list rect) :
  paint rectangle (Image (im_width i) (im_height i) (rectangle (pixels i) xy)) rs
  = paint rectangle i (xy :: rs).
Proof. reflexivity. Qed.

Lemma world_eta (w : @world pixbuf) : World (heap w) (screen w) = w.
Proof. destruct w; reflexivity. Qed.

Lemma bind_run {A B} (m : M A) (k : A -> M B) (w : @world pixbuf) :
  (m ≫= k) w = match m w with
               | (Ok a, w') => k a w'
               | (Raise e, w') => (Raise e, w')
               end.
Proof. reflexivity. Qed.

(** One turn of the loop, run. *)
Lemma draw_item_run (p : provider) (c : loc) (width height : Z) (item : json)
    (i : image) (w : world) :
  heap w !! c = Some i ->
  draw_item rectangle p c width height item w =
    match item_rect p width height item with
    | Ok (Some xy) =>
        if accepted xy
        then (Ok tt, World (<[c := Image (im_width i) (im_height i)
                                         (rectangle (pixels i) xy)]> (heap w))
                           (screen w))
        else (Raise ValueError, w)
    | Ok None => (Ok tt, w)
    | Raise e => (Raise e, w)
    end.
Proof.
  intros Hc. unfold draw_item. rewrite bind_run. unfold lift.
  destruct (item_rect p width height item) as [[xy|]|e]; try reflexivity.
  unfold draw_rectangle. destruct (accepted xy); [|reflexivity].
  rewrite bind_run. unfold deref. rewrite Hc. reflexivity.
Qed.

(** The loop draws the rectangles of [drawn], in order, on the image it
    was given, and touches nothing else. *)
Lemma for_each_drawn (p : provider) (width height : Z) (c : loc) (items : list json) :
  forall (i : image) (w : world),
    heap w !! c = Some i ->
    for_each items (draw_item rectangle p c width height) w
    = ((drawn p width height items).2,
       World (<[c := paint rectangle i (drawn p width height items).1]> (heap w))
             (screen w)).
Proof.
  induction items as [|item rest IH]; intros i w Hc.
  - cbn. rewrite paint_nil, list_insert_id by exact Hc.
    rewrite world_eta. reflexivity.
  - cbn [for_each drawn]. rewrite bind_run, (draw_item_run _ _ _ _ _ i) by exact Hc.
    destruct (item_rect p width height item) as [[xy|]|e].
    + destruct (accepted xy).
      * set (i' := Image (im_width i) (im_height i) (rectangle (pixels i) xy)).
        set (w' := World (<[c := i']> (heap w)) (screen w)).
        assert (Hc' : heap w' !! c = Some i').
        { apply list_lookup_insert_eq. eapply lookup_lt_Some, Hc. }
        rewrite (IH i' w' Hc').
        destruct (drawn p width height rest) as [rs o]. cbn.
        rewrite list_insert_insert_eq. reflexivity.
      * cbn. rewrite paint_nil, list_insert_id by exact Hc.
        rewrite world_eta. reflexivity.
    + apply IH, Hc.
    + cbn. rewrite paint_nil, list_insert_id by exact Hc.
      rewrite world_eta. reflexivity.
Qed.

(** [draw_boxes_on_image] changes the image it is given, in place, and
    nothing else. *)
Lemma draw_boxes_run (p : provider) (c : loc) (data : json) (i : image) (w : world) :
  heap w !! c = Some i ->
  draw_boxes_on_image rectangle p c data w =
    (match (annotate rectangle p i data).2 with
     | Ok _ => Ok c
     | Raise e => Raise e
     end,
     World (<[c := (annotate rectangle p i data).1]> (heap w)) (screen w)).
Proof.
  intros Hc. unfold draw_boxes_on_image, annotate, layout_of.
  rewrite bind_run. unfold Image_size. rewrite bind_run. unfold deref.
  rewrite Hc. cbn [mret M_ret]. rewrite bind_run. unfold lift at 1.
  destruct (py_get data "layout" (JArr [])) as [layout_items|e]; cbn [mbind result_bind].
  2:{ cbn. rewrite list_insert_id by exact Hc. by rewrite world_eta. }
  rewrite bind_run. unfold lift at 1.
  destruct (py_iter layout_items) as [items|e].
  2:{ cbn. rewrite list_insert_id by exact Hc. by rewrite world_eta. }
  rewrite bind_run, (for_each_drawn _ _ _ _ _ i) by exact Hc.
  destruct (drawn p (im_width i) (im_height i) items) as [rs [[]|e]]; reflexivity.
Qed.

End Drawing.

(** ** The button handlers *)

Section Handlers.

Context {pixbuf : Type}.
Variable rectangle : pixbuf -> rect -> pixbuf.
Variable json_loads : string -> result json.

#[local] Abbreviation run := (extract_and_visualize rectangle json_loads).

Lemma copy_run (l : loc) (i : image) (w : @world pixbuf) :
  heap w !! l = Some i ->
  Image_copy l w = (Ok (length (heap w)), World (heap w ++ [i]) (screen w)).
Proof.
  intros Hl. unfold Image_copy. rewrite bind_run. unfold deref. rewrite Hl.
  reflexivity.
Qed.

Lemma lookup_copy (h : list (@image pixbuf)) (i : image) :
  (h ++ [i]) !! length h = Some i.
Proof. apply list_lookup_middle. reflexivity. Qed.

Lemma insert_copy (h : list (@image pixbuf)) (i i' : image) :
  <[length h := i']> (h ++ [i]) = h ++ [i'].
Proof.
  replace (length h) with (length h + 0)%nat at 1 by lia.
  rewrite insert_app_r. reflexivity.
Qed.

(** The part of both handlers that follows [json.loads]. *)
Lemma after_loads (p : provider) (l : loc) (raw : string) (data : json)
    (i : image) (w : world) :
  heap w !! l = Some i ->
  (annotated_image ← Image_copy l;
   final_image ← draw_boxes_on_image rectangle p annotated_image data;
   shown ← deref final_image;
   st (st_image shown);;
   clean_display ← lift (py_get data "structured_data" (JObj ∅));
   st (st_json clean_display);;
   st (st_download_button raw)) w
  = let r := annotate rectangle p i data in
    (match r.2 with
     | Raise e => Raise e
     | Ok _ => match py_get data "structured_data" (JObj ∅) with
               | Ok _ => Ok tt
               | Raise e => Raise e
               end
     end,
     World (heap w ++ [r.1])
           (screen w ++ match r.2 with
                        | Raise _ => []
                        | Ok _ =>
                            match py_get data "structured_data" (JObj ∅) with
                            | Ok clean_display =>
                                [st_image r.1; st_json clean_display;
                                 st_download_button raw]
                            | Raise _ => [st_image r.1]
                            end
                        end)).
Proof.
  intros Hl. cbn zeta.
  rewrite bind_run, (copy_run l i w Hl).
  rewrite bind_run, (draw_boxes_run rectangle p _ data i) by apply lookup_copy.
  cbn [heap screen]. rewrite insert_copy.
  destruct (annotate rectangle p i data) as [i' [[]|e]]; cbn [fst snd].
  2:{ by rewrite app_nil_r. }
  rewrite bind_run. unfold deref. cbn [heap]. rewrite lookup_copy.
  rewrite bind_run. unfold st at 1. cbn [heap screen].
  rewrite bind_run. unfold lift at 1.
  destruct (py_get data "structured_data" (JObj ∅)) as [clean_display|e].
  2:{ reflexivity. }
  rewrite bind_run. unfold st. cbn [heap screen].
  rewrite <- !app_assoc. reflexivity.
Qed.

(** A reply that [json.loads] decodes. *)
Lemma run_decoded (p : provider) (l : loc) (raw : string) (data : json)
    (i : image) (w : world) :
  json_loads raw = Ok data -> raw <> "" -> heap w !! l = Some i ->
  run p l raw w =
    (Ok tt,
     World (heap w ++ [(annotate rectangle p i data).1])
           (screen w ++ page p raw data (annotate rectangle p i data))).
Proof.
  intros Hloads Hraw Hl.
  assert (Hne : String.eqb raw "" = false) by (by apply String.eqb_neq).
  destruct p; unfold extract_and_visualize, gemini_extract_and_visualize,
    groq_extract_and_visualise, try_except.
  - rewrite Hne. cbn [negb]. rewrite bind_run. unfold lift at 1. rewrite Hloads.
    rewrite (after_loads Gemini l raw data i w Hl). cbn zeta. unfold page.
    destruct (annotate rectangle Gemini i data) as [i' [[]|e]]; cbn [fst snd].
    + destruct (py_get data "structured_data" (JObj ∅)) as [cd|e]; [reflexivity|].
      unfold st. cbn. by rewrite <- app_assoc.
    + unfold st. cbn. by rewrite app_nil_r.
  - rewrite bind_run. unfold lift at 1. rewrite Hloads.
    rewrite (after_loads Groq l raw data i w Hl). cbn zeta. unfold page.
    destruct (annotate rectangle Groq i data) as [i' [[]|e]]; cbn [fst snd].
    + destruct (py_get data "structured_data" (JObj ∅)) as [cd|e]; [reflexivity|].
      destruct e; unfold st; cbn; try rewrite bind_run; cbn;
        by rewrite <- !app_assoc.
    + rewrite app_nil_r.
      destruct e; unfold st; cbn; try rewrite bind_run; cbn;
        by rewrite <- ?app_assoc.
Qed.

(** A reply on which [json.loads] raises: the handlers call the decoder on
    the text as it came, and report its failure. *)
Lemma run_undecodable (p : provider) (l : loc) (raw : string) (e : exn) (w : world) :
  json_loads raw = Raise e -> raw <> "" ->
  run p l raw w = (Ok tt, World (heap w) (screen w ++ error_page p raw e)).
Proof.
  intros Hloads Hraw.
  assert (Hne : String.eqb raw "" = false) by (by apply String.eqb_neq).
  destruct p; unfold extract_and_visualize, gemini_extract_and_visualize,
    groq_extract_and_visualise, try_except.
  - rewrite Hne. cbn [negb]. rewrite bind_run. unfold lift at 1. rewrite Hloads.
    reflexivity.
  - rewrite bind_run. unfold lift at 1. rewrite Hloads.
    destruct e; unfold st; cbn; try rewrite bind_run; cbn;
      by rewrite <- ?app_assoc.
Qed.

(** gemini_Testing.py on an empty [response.text]. *)
Lemma run_gemini_empty (l : loc) (w : world) :
  run Gemini l "" w =
    (Ok tt, World (heap w) (screen w ++ [st_warning "No response generated."])).
Proof. reflexivity. Qed.

End Handlers.

(** ** The clean display view and replies that are not JSON *)

Section Display.

Context {pixbuf : Type}.
Variable rectangle : pixbuf -> rect -> pixbuf.
Variable json_loads : string -> result json.

#[local] Abbreviation run := (extract_and_visualize rectangle json_loads).

(** C2 (as the code has it).  For every decoded JSON object without a
    [structured_data] key, the clean display view is the default of
    [data.get("structured_data", {})], the empty object, and not the parsed
    value: no [st.json] widget the handler adds shows anything else, and
    when the drawing raises no exception the page gets the annotated copy,
    the empty object and the download button. *)
Theorem C2_clean_display_defaults_to_empty (p : provider) (l : loc) (raw : string)
    (m : gmap string json) (i : image) (w : world) :
  json_loads raw = Ok (JObj m) -> m !! "structured_data" = None ->
  raw <> "" -> heap w !! l = Some i ->
  py_get (JObj m) "structured_data" (JObj ∅) = Ok (JObj ∅) /\
  exists added,
    run p l raw w =
      (Ok tt, World (heap w ++ [(annotate rectangle p i (JObj m)).1])
                    (screen w ++ added)) /\
    (forall body, In (st_json body) added -> body = JObj ∅) /\
    ((annotate rectangle p i (JObj m)).2 = Ok tt ->
     added = [st_image (annotate rectangle p i (JObj m)).1; st_json (JObj ∅);
              st_download_button raw]).
Proof.
  intros Hloads Hsd Hraw Hl.
  assert (Hget : py_get (JObj m) "structured_data" (JObj ∅) = Ok (JObj ∅)).
  { cbn. by rewrite Hsd. }
  split; [exact Hget|].
  exists (page p raw (JObj m) (annotate rectangle p i (JObj m))).
  split; [by apply run_decoded|].
  unfold page. rewrite Hget.
  destruct (annotate rectangle p i (JObj m)) as [i' [[]|e]]; cbn [fst snd].
  - split; [|done].
    intros body [H|[H|[H|[]]]]; congruence.
  - split; [|done].
    intros body Hin. destruct p, e; cbn in Hin;
      repeat (destruct Hin as [Hin|Hin]; try discriminate Hin); done.
Qed.

(** C3 (as the code has it).  The handlers call [json.loads] on the reply
    as it came: no leading or trailing text is stripped first.  For every
    non-empty reply on which it raises [JSONDecodeError], the handler
    catches the exception, leaves the store as it was and adds to the page
    an error and no image, structured data or download; claude_testing.py
    adds its fixed message followed by the raw reply, verbatim, in
    [st.code]. *)
Theorem C3_undecodable_reply_is_reported (p : provider) (l : loc) (raw msg : string)
    (w : world) :
  json_loads raw = Raise (JSONDecodeError msg) -> raw <> "" ->
  exists added,
    run p l raw w = (Ok tt, World (heap w) (screen w ++ added)) /\
    forallb (fun x => negb (shows_result x)) added = true /\
    (p = Gemini -> In (st_error_exn (JSONDecodeError msg)) added) /\
    (p = Groq ->
     added = [st_error "Groq returned invalid JSON. Try again."; st_code raw]).
Proof.
  intros Hloads Hraw.
  exists (error_page p raw (JSONDecodeError msg)).
  split; [by apply run_undecodable|].
  destruct p; cbn; repeat split; try done; auto.
Qed.

(** C4 (as the code has it).  On the reply
    [{"structured_data":{"invoice":"A1"},
      "layout":[{"text":"Invoice","box_2d":[0,0,100,500]}]}]
    and an image 1000 pixels wide and 2000 pixels high, both handlers draw
    exactly one rectangle on the copy, from pixel (0,0) to pixel (500,200),
    show the annotated copy, and show [{"invoice":"A1"}] as the clean
    display view. *)
Theorem C4_invoice_end_to_end (p : provider) (l : loc) (px : pixbuf) (w : world) :
  json_loads raw_invoice = Ok data_invoice ->
  heap w !! l = Some (Image 1000 2000 px) ->
  let annotated := Image 1000 2000 (rectangle px (Rect 0 0 500 200)) in
  run p l raw_invoice w =
    (Ok tt,
     World (heap w ++ [annotated])
           (screen w ++ [st_image annotated;
                         st_json (JObj {[ "invoice" := JStr "A1" ]});
                         st_download_button raw_invoice])).
Proof.
  intros Hloads Hl annotated.
  rewrite (run_decoded rectangle json_loads p l raw_invoice data_invoice
             (Image 1000 2000 px) w Hloads); [|discriminate|exact Hl].
  destruct p; reflexivity.
Qed.

End Display.

(** ** Layout entries *)

(** An entry without a usable [box_2d] is skipped by the loop. *)
Lemma item_rect_invalid (p : provider) (width height : Z) (item : json) :
  invalid_entry item -> item_rect p width height item = Ok None.
Proof.
  intros (m & -> & [Hnone | (box & n & Hbox & Hlen & Hn)]); unfold item_rect; cbn.
  - rewrite Hnone. reflexivity.
  - rewrite Hbox. cbn. destruct (py_bool box); [|reflexivity].
    rewrite Hlen. cbn.
    destruct (Nat.eqb n 4) eqn:E; [|reflexivity].
    apply Nat.eqb_eq in E. contradiction.
Qed.

Lemma drawn_skip (p : provider) (width height : Z) (pre post : list json) (bad : json) :
  item_rect p width height bad = Ok None ->
  drawn p width height (pre ++ bad :: post) = drawn p width height (pre ++ post).
Proof.
  intros Hbad. induction pre as [|item pre IH]; cbn.
  - rewrite Hbad. reflexivity.
  - destruct (item_rect p width height item) as [[xy|]|e]; [|exact IH|reflexivity].
    rewrite IH. reflexivity.
Qed.



(** A box of four numbers always gives a rectangle. *)
Lemma normalize_numbers (p : provider) (width height : Z) (ymin xmin ymax xmax : json) :
  is_number ymin = true -> is_number xmin = true ->
  is_number ymax = true -> is_number xmax = true ->
  exists r, normalize p width height (JArr [ymin; xmin; ymax; xmax]) = Ok r.
Proof.
  unfold is_number. intros H1 H2 H3 H4.
  destruct (py_number ymin) as [qa|] eqn:Ea; [|discriminate].
  destruct (py_number xmin) as [qb|] eqn:Eb; [|discriminate].
  destruct (py_number ymax) as [qc|] eqn:Ec; [|discriminate].
  destruct (py_number xmax) as [qd|] eqn:Ed; [|discriminate].
  destruct p.
  - destruct (ensure_order_gemini ymin ymax qa qc Ea Ec)
      as (ylo & yhi & u & v & Ey & Eu & Ev & _).
    destruct (ensure_order_gemini xmin xmax qb qd Eb Ed)
      as (xlo & xhi & u' & v' & Ex & Eu' & Ev' & _).
    unfold normalize. cbn. rewrite Ey. cbn. rewrite Ex. cbn.
    rewrite (scale_number xlo u' width Eu'). cbn.
    rewrite (scale_number ylo u height Eu). cbn.
    rewrite (scale_number xhi v' width Ev'). cbn.
    rewrite (scale_number yhi v height Ev). cbn.
    eexists. reflexivity.
  - eexists. by apply normalize_groq.
Qed.



#[local] Arguments normalize : simpl never.

Section Layout.

Context {pixbuf : Type}.
Variable rectangle : pixbuf -> rect -> pixbuf.
Variable json_loads : string -> result json.

#[local] Abbreviation run := (extract_and_visualize rectangle json_loads).
#[local] Abbreviation draw := (draw_boxes_on_image rectangle).

(** The payload [d] with its [layout] set to [items]. *)
#[local] Abbreviation with_layout d items := (JObj (<["layout" := JArr items]> d)).

Lemma annotate_with_layout (p : provider) (i : @image pixbuf)
    (d : gmap string json) (items : list json) :
  annotate rectangle p i (with_layout d items) =
    (paint rectangle i (drawn p (im_width i) (im_height i) items).1,
     (drawn p (im_width i) (im_height i) items).2).
Proof.
  unfold annotate, layout_of. cbn. rewrite lookup_insert_eq. cbn.
  destruct (drawn p (im_width i) (im_height i) items). reflexivity.
Qed.

(** Only a [dict] has [get]: on a payload that is a list, a string or a
    number the first line of the loop set-up raises, before anything is
    drawn. *)
Lemma draw_boxes_on_non_object (p : provider) (c : loc) (data : json)
    (i : image) (w : world) :
  heap w !! c = Some i ->
  (forall m, data <> JObj m) ->
  draw p c data w = (Raise AttributeError, w).
Proof.
  intros Hc Hdata.
  rewrite (draw_boxes_run rectangle p c data i w Hc).
  unfold annotate, layout_of.
  destruct data; try (cbn; rewrite list_insert_id by exact Hc; by rewrite world_eta).
  by destruct (Hdata m).
Qed.

(** An entry of [layout] without [box_2d], or whose [box_2d] has a length
    other than 4, is skipped: drawing the layout with the entry gives the
    same outcome and the same image as drawing it without, wherever the
    entry stands; and with one entry whose rectangle [draw.rectangle]
    accepts, in either order, the call ends without an exception with
    exactly that rectangle on the image. *)
Lemma invalid_entries_are_skipped (p : provider) (c : loc)
    (d : gmap string json) (pre post : list json) (bad : json)
    (i : image) (w : world) :
  invalid_entry bad -> heap w !! c = Some i ->
  draw p c (with_layout d (pre ++ bad :: post)) w
    = draw p c (with_layout d (pre ++ post)) w /\
  forall good xy,
    item_rect p (im_width i) (im_height i) good = Ok (Some xy) ->
    accepted xy = true ->
    let one := World (<[c := Image (im_width i) (im_height i)
                                   (rectangle (pixels i) xy)]> (heap w))
                     (screen w) in
    draw p c (with_layout d [good; bad]) w = (Ok c, one) /\
    draw p c (with_layout d [bad; good]) w = (Ok c, one).
Proof.
  intros Hbad Hc.
  pose proof (item_rect_invalid p (im_width i) (im_height i) bad Hbad) as Hskip.
  split.
  - rewrite !(draw_boxes_run rectangle p c _ i w Hc), !annotate_with_layout.
    rewrite (drawn_skip _ _ _ pre post bad Hskip). reflexivity.
  - intros good xy Hgood Hacc one.
    rewrite !(draw_boxes_run rectangle p c _ i w Hc), !annotate_with_layout.
    cbn [drawn]. rewrite Hgood, Hskip, Hacc. done.
Qed.


(** C6 (as the code has it).  For every decoded JSON object without a
    [layout] key (a reply that is not an object has no [get]) the layout
    is the empty list: [draw_boxes_on_image] returns its image unchanged
    and raises nothing, and the handler shows the copy, equal to the
    original, the structured data as with any other payload, and the
    download button. *)
Theorem C6_missing_layout_draws_nothing (p : provider) (l : loc) (raw : string)
    (m : gmap string json) (i : image) (w : world) :
  json_loads raw = Ok (JObj m) -> m !! "layout" = None ->
  raw <> "" -> heap w !! l = Some i ->
  layout_of (JObj m) = Ok [] /\
  draw p l (JObj m) w = (Ok l, w) /\
  run p l raw w =
    (Ok tt,
     World (heap w ++ [i])
           (screen w ++ [st_image i;
                         st_json (default (JObj ∅) (m !! "structured_data"));
                         st_download_button raw])).
Proof.
  intros Hloads Hlayout Hraw Hl.
  assert (Hnone : layout_of (JObj m) = Ok []).
  { unfold layout_of. cbn. rewrite Hlayout. reflexivity. }
  assert (Hann : annotate rectangle p i (JObj m) = (i, Ok tt)).
  { unfold annotate. rewrite Hnone. cbn. by rewrite paint_nil. }
  split; [exact Hnone|]. split.
  - rewrite (draw_boxes_run rectangle p l _ i w Hl), Hann. cbn.
    rewrite list_insert_id by exact Hl. by rewrite world_eta.
  - rewrite (run_decoded rectangle json_loads p l raw (JObj m) i w Hloads Hraw Hl).
    rewrite Hann. reflexivity.
Qed.


End Layout.

(** ** The original image and its copies *)

Section Copies.

Context {pixbuf : Type}.
Variable rectangle : pixbuf -> rect -> pixbuf.
Variable json_loads : string -> result json.

#[local] Abbreviation run := (extract_and_visualize rectangle json_loads).
#[local] Abbreviation draw := (draw_boxes_on_image rectangle).

Lemma annotate_paints (p : provider) (i : @image pixbuf) (data : json) :
  exists rs, (annotate rectangle p i data).1 = paint rectangle i rs.
Proof.
  unfold annotate. destruct (layout_of data) as [items|e].
  - destruct (drawn p (im_width i) (im_height i) items) as [rs o].
    exists rs. reflexivity.
  - exists []. cbn. by rewrite paint_nil.
Qed.

Lemma error_page_no_image (p : provider) (raw : string) (e : exn)
    (shown : @image pixbuf) :
  ~ In (st_image shown) (error_page p raw e).
Proof.
  intros Hin. destruct p, e; cbn in Hin;
    repeat (destruct Hin as [Hin|Hin]; try discriminate Hin); done.
Qed.

Lemma page_image (p : provider) (raw : string) (data : json)
    (r : @image pixbuf * result unit) (shown : image) :
  In (st_image shown) (page p raw data r) -> shown = r.1.
Proof.
  unfold page. destruct r as [i' [[]|e]]; cbn [fst snd].
  - destruct (py_get data "structured_data" (JObj ∅)) as [cd|e].
    + intros [H|[H|[H|[]]]]; congruence.
    + intros [H|H]; [congruence|]. by apply error_page_no_image in H.
  - intros H. by apply error_page_no_image in H.
Qed.

(** What a handler does to the store and to the page, whatever the reply. *)
Lemma run_cases (p : provider) (l : loc) (raw : string) (i : image) (w : world) :
  heap w !! l = Some i ->
  (exists added,
      run p l raw w = (Ok tt, World (heap w) (screen w ++ added)) /\
      forall shown, ~ In (st_image shown) added) \/
  (exists data,
      run p l raw w =
        (Ok tt, World (heap w ++ [(annotate rectangle p i data).1])
                      (screen w ++ page p raw data (annotate rectangle p i data)))).
Proof.
  intros Hl.
  destruct (String.eqb raw "") eqn:Eraw.
  - apply String.eqb_eq in Eraw. subst raw.
    destruct p.
    + left. eexists. split; [apply run_gemini_empty|].
      intros shown [H|[]]. discriminate H.
    + destruct (json_loads "") as [data|e] eqn:Eloads.
      * right. exists data.
        unfold extract_and_visualize, groq_extract_and_visualise, try_except.
        rewrite bind_run. unfold lift at 1. rewrite Eloads.
        rewrite (after_loads rectangle Groq l "" data i w Hl). cbn zeta.
        unfold page.
        destruct (annotate rectangle Groq i data) as [i' [[]|e]]; cbn [fst snd].
        -- destruct (py_get data "structured_data" (JObj ∅)) as [cd|e];
             [reflexivity|].
           destruct e; unfold st; cbn; try rewrite bind_run; cbn;
             by rewrite <- !app_assoc.
        -- rewrite app_nil_r.
           destruct e; unfold st; cbn; try rewrite bind_run; cbn;
             by rewrite <- ?app_assoc.
      * left. exists (error_page Groq "" e). split.
        -- unfold extract_and_visualize, groq_extract_and_visualise, try_except.
           rewrite bind_run. unfold lift at 1. rewrite Eloads.
           destruct e; unfold st; cbn; try rewrite bind_run; cbn;
             by rewrite <- ?app_assoc.
        -- intros shown. apply error_page_no_image.
  - apply String.eqb_neq in Eraw.
    destruct (json_loads raw) as [data|e] eqn:Eloads.
    + right. exists data. by apply run_decoded.
    + left. exists (error_page p raw e). split; [by apply run_undecodable|].
      intros shown. apply error_page_no_image.
Qed.

(** C7.  A handler never draws on the image it was given.  Whatever the
    reply and whatever it decodes to, after the handler has run the original
    image object holds the buffer it held before (so any hash of it is
    unchanged), every other object that existed is as it was, the store has
    gained at most one object, the copy, which is the original with the
    rectangles drawn on it, and an image the handler shows is that copy. *)
Theorem C7_original_image_untouched (p : provider) (l : loc) (raw : string)
    (i : image) (w : world) :
  heap w !! l = Some i ->
  exists w',
    run p l raw w = (Ok tt, w') /\
    heap w' !! l = Some i /\
    (forall (digest : Type) (hash : pixbuf -> digest) (i' : image),
        heap w' !! l = Some i' -> hash (pixels i') = hash (pixels i)) /\
    (forall l', (l' < length (heap w))%nat -> heap w' !! l' = heap w !! l') /\
    (heap w' = heap w \/
     exists rs, heap w' = heap w ++ [paint rectangle i rs]) /\
    (forall added shown,
        screen w' = screen w ++ added -> In (st_image shown) added ->
        heap w' !! length (heap w) = Some shown /\ length (heap w) <> l).
Proof.
  intros Hl.
  destruct (run_cases p l raw i w Hl) as [(added & Hrun & Hno) | (data & Hrun)];
    rewrite Hrun; eexists; (split; [reflexivity|]); cbn [heap screen].
  - split; [exact Hl|].
    split; [intros digest hash i' Hi'; rewrite Hl in Hi'; by injection Hi' as <-|].
    split; [done|]. split; [by left|].
    intros added' shown Heq Hin. apply app_inv_head in Heq. subst added'.
    by apply Hno in Hin.
  - split; [by apply lookup_app_l_Some|].
    split.
    { intros digest hash i' Hi'.
      rewrite (lookup_app_l_Some _ _ _ _ Hl) in Hi'. by injection Hi' as <-. }
    split; [intros l' Hl'; by apply lookup_app_l|].
    split.
    + right. destruct (annotate_paints p i data) as [rs Hrs].
      exists rs. by rewrite Hrs.
    + intros added' shown Heq Hin. apply app_inv_head in Heq. subst added'.
      apply page_image in Hin. subst shown.
      split; [apply lookup_copy|].
      apply lookup_lt_Some in Hl. lia.
Qed.

(** C8.  Two copies of one source image are two objects; drawing the same
    payload on the first and then on the second ends the same way both
    times and leaves the two copies equal, buffer for buffer, while the
    source keeps its own. *)
Theorem C8_rendering_is_deterministic (p : provider) (l : loc) (data : json)
    (i : image) (w : world) :
  heap w !! l = Some i ->
  exists c1 c2 w1 w2 w3 w4 annotated,
    Image_copy l w = (Ok c1, w1) /\
    Image_copy l w1 = (Ok c2, w2) /\
    c1 <> c2 /\
    draw p c1 data w2 = (match (annotate rectangle p i data).2 with
                         | Ok _ => Ok c1 | Raise e => Raise e end, w3) /\
    draw p c2 data w3 = (match (annotate rectangle p i data).2 with
                         | Ok _ => Ok c2 | Raise e => Raise e end, w4) /\
    heap w4 !! c1 = Some annotated /\
    heap w4 !! c2 = Some annotated /\
    heap w4 !! l = Some i.
Proof.
  intros Hl.
  pose proof (lookup_lt_Some _ _ _ Hl) as Hlt.
  set (h := heap w).
  set (c1 := length h). set (c2 := S (length h)).
  set (w1 := World (h ++ [i]) (screen w)).
  set (w2 := World ((h ++ [i]) ++ [i]) (screen w)).
  set (a := (annotate rectangle p i data).1).
  set (w3 := World (<[c1 := a]> ((h ++ [i]) ++ [i])) (screen w)).
  set (w4 := World (<[c2 := a]> (<[c1 := a]> ((h ++ [i]) ++ [i]))) (screen w)).
  assert (H1 : ((h ++ [i]) ++ [i]) !! c1 = Some i).
  { apply lookup_app_l_Some, lookup_copy. }
  assert (H2 : ((h ++ [i]) ++ [i]) !! c2 = Some i).
  { replace c2 with (length (h ++ [i])) by (rewrite length_app; cbn; lia).
    apply lookup_copy. }
  assert (H3 : (<[c1 := a]> ((h ++ [i]) ++ [i])) !! c2 = Some i).
  { rewrite list_lookup_insert_ne by (unfold c1, c2; lia). exact H2. }
  exists c1, c2, w1, w2, w3, w4, a.
  split; [by apply copy_run|].
  split.
  { rewrite (copy_run l i w1) by (by apply lookup_app_l_Some).
    unfold w1, w2, c2. cbn [heap screen]. rewrite length_app. cbn.
    do 3 f_equal. lia. }
  split; [unfold c1, c2; lia|].
  split; [by rewrite (draw_boxes_run rectangle p c1 data i w2 H1)|].
  split; [by rewrite (draw_boxes_run rectangle p c2 data i w3 H3)|].
  cbn [heap w4].
  split.
  { rewrite list_lookup_insert_ne by (unfold c1, c2; lia).
    apply list_lookup_insert_eq. apply lookup_lt_Some in H1. exact H1. }
  split.
  { apply list_lookup_insert_eq. rewrite length_insert.
    apply lookup_lt_Some in H2. exact H2. }
  rewrite !list_lookup_insert_ne by (unfold c1, c2, h; lia).
  by do 2 apply lookup_app_l_Some.
Qed.

End Copies.

(** ** The media type of the image sent to the chat models *)

(** C10.  In the three files that send the image inside a data URL, the
    request holds exactly one image part, and its URL is
    [data:image/jpeg;base64,] followed by the base64 text of the uploaded
    bytes: the declared media type is [image/jpeg] for every uploaded file,
    whatever its name, extension or content. *)
Theorem C10_media_type_is_always_jpeg (b64encode : list Byte.byte -> string)
    (i : integration) (prompt : string) (uploaded_file : UploadedFile) :
  image_urls (user_content b64encode i prompt uploaded_file)
    = [("data:image/jpeg;base64," ++ b64encode (getvalue uploaded_file))%string] /\
  Forall (fun url => declared_media_type url = Some "image/jpeg")
         (image_urls (user_content b64encode i prompt uploaded_file)).
Proof.
  assert (Hurls : image_urls (user_content b64encode i prompt uploaded_file)
            = [("data:image/jpeg;base64," ++ b64encode (getvalue uploaded_file))%string]).
  { destruct i; reflexivity. }
  split; [exact Hurls|]. rewrite Hurls.
  constructor; [reflexivity | constructor].
Qed.

(** * The properties on the sample inputs *)

#[local] Abbreviation sample_run :=
  (extract_and_visualize record_rectangle sample_loads).
#[local] Abbreviation sample_draw := (draw_boxes_on_image record_rectangle).

(** C2, as stated, fails on [{"a":1}]: [json.loads] returns the object, it
    has no [structured_data] key, and both handlers show the empty object,
    which is not the parsed value. *)
Lemma C2_whole_value_is_not_shown :
  sample_loads raw_a1 = Ok data_a1 /\
  py_get data_a1 "structured_data" (JObj ∅) = Ok (JObj ∅) /\
  sample_run Gemini 0%nat raw_a1 (session 1000 2000) =
    (Ok tt, World [Image 1000 2000 []; Image 1000 2000 []]
                  [st_image (Image 1000 2000 []); st_json (JObj ∅);
                   st_download_button raw_a1]) /\
  sample_run Groq 0%nat raw_a1 (session 1000 2000) =
    (Ok tt, World [Image 1000 2000 []; Image 1000 2000 []]
                  [st_image (Image 1000 2000 []); st_json (JObj ∅);
                   st_download_button raw_a1]) /\
  JObj ∅ <> data_a1.
Proof. repeat split; try reflexivity. discriminate. Qed.

(** C3, as stated, fails on a reply that wraps [{}] in prose: the object
    alone decodes, the reply does not, and no handler strips the prose before
    it reports the failure; gemini_Testing.py then shows the decoder's
    message only, not the reply. *)
Lemma C3_prose_is_not_stripped :
  raw_prose = ("Here is the JSON: " ++ "{}")%string /\
  sample_loads "{}" = Ok (JObj ∅) /\
  sample_loads raw_prose = Raise (JSONDecodeError expecting_value) /\
  sample_run Groq 0%nat raw_prose (session 1000 2000) =
    (Ok tt, World [Image 1000 2000 []]
                  [st_error "Groq returned invalid JSON. Try again.";
                   st_code raw_prose]) /\
  sample_run Gemini 0%nat raw_prose (session 1000 2000) =
    (Ok tt, World [Image 1000 2000 []]
                  [st_error_exn (JSONDecodeError expecting_value)]).
Proof. repeat split; reflexivity. Qed.

(** C4, as stated, fails: on the invoice reply the one rectangle drawn ends
    at pixel (500,200) on an image 1000 wide and 2000 high, and at pixel
    (1000,100) on an image 2000 wide and 1000 high; neither is
    (1000,200). *)
Lemma C4_rectangle_is_not_1000_200 :
  sample_loads raw_invoice = Ok data_invoice /\
  heap (sample_run Gemini 0%nat raw_invoice (session 1000 2000)).2 =
    [Image 1000 2000 []; Image 1000 2000 [Rect 0 0 500 200]] /\
  heap (sample_run Gemini 0%nat raw_invoice (session 2000 1000)).2 =
    [Image 2000 1000 []; Image 2000 1000 [Rect 0 0 1000 100]] /\
  Rect 0 0 500 200 <> Rect 0 0 1000 200 /\
  Rect 0 0 1000 100 <> Rect 0 0 1000 200.
Proof. repeat split; try reflexivity; discriminate. Qed.

Lemma C2_witness :
  exists added,
    sample_run Gemini 0%nat raw_a1 (session 1000 2000) =
      (Ok tt, World [Image 1000 2000 []; Image 1000 2000 []] added) /\
    forall body, In (st_json body) added -> body = JObj ∅.
Proof.
  assert (Hraw : raw_a1 <> "") by discriminate.
  destruct (C2_clean_display_defaults_to_empty record_rectangle sample_loads
              Gemini 0%nat raw_a1 {[ "a" := JInt 1 ]} (Image 1000 2000 [])
              (session 1000 2000) eq_refl eq_refl Hraw eq_refl)
    as (_ & added & Hrun & Hjson & _).
  exists added. split; [exact Hrun | exact Hjson].
Defined.

Lemma C3_witness :
  exists added,
    sample_run Groq 0%nat raw_prose (session 1000 2000) =
      (Ok tt, World [Image 1000 2000 []] added) /\
    forallb (fun x => negb (shows_result x)) added = true.
Proof.
  assert (Hraw : raw_prose <> "") by discriminate.
  destruct (C3_undecodable_reply_is_reported record_rectangle sample_loads
              Groq 0%nat raw_prose expecting_value (session 1000 2000)
              eq_refl Hraw)
    as (added & Hrun & Hno & _).
  exists added. split; [exact Hrun | exact Hno].
Defined.

Lemma C4_witness :
  sample_run Gemini 0%nat raw_invoice (session 1000 2000) =
    (Ok tt,
     World [Image 1000 2000 []; Image 1000 2000 [Rect 0 0 500 200]]
           [st_image (Image 1000 2000 [Rect 0 0 500 200]);
            st_json (JObj {[ "invoice" := JStr "A1" ]});
            st_download_button raw_invoice]).
Proof.
  exact (C4_invoice_end_to_end record_rectangle sample_loads Gemini 0%nat []
           (session 1000 2000) eq_refl eq_refl).
Defined.

(** C5 (the claim holds for gemini_Testing.py and fails for
    claude_testing.py).  A layout of the entry [{"box_2d":[100,0,0,500]}],
    valid and with its corners swapped vertically, and of the entry
    [{"text":"X"}], which has no box: on an image 1000 wide and 2000 high
    gemini_Testing.py drops the second entry and draws exactly one rectangle,
    from (0,0) to (500,200); claude_testing.py hands [draw.rectangle] the
    corners unordered, the call raises [ValueError] and no rectangle is
    drawn. *)
Theorem C5_groq_draws_nothing_for_a_swapped_entry :
  sample_draw Gemini 0%nat
    (JObj (<["layout" := JArr [entry_swapped; entry_without_box]]> ∅))
    (session 1000 2000)
  = (Ok 0%nat, World [Image 1000 2000 [Rect 0 0 500 200]] []) /\
  item_rect Groq 1000 2000 entry_swapped = Ok (Some (Rect 0 200 500 0)) /\
  accepted (Rect 0 200 500 0) = false /\
  sample_draw Groq 0%nat
    (JObj (<["layout" := JArr [entry_swapped; entry_without_box]]> ∅))
    (session 1000 2000)
  = (Raise ValueError, session 1000 2000).
Proof. repeat split; reflexivity. Qed.

(** C6, as stated, fails on the reply [[1, 2]]: it is valid JSON and has no
    [layout] key, yet [json_response.get] raises [AttributeError] in both
    files, and the handlers show the error and no structured data. *)
Lemma C6_list_payload_raises :
  py_get (JArr [JInt 1; JInt 2]) "layout" (JArr []) = Raise AttributeError /\
  extract_and_visualize record_rectangle (always (JArr [JInt 1; JInt 2]))
    Gemini 0%nat "[1, 2]" (session 1000 2000)
  = (Ok tt, World [Image 1000 2000 []; Image 1000 2000 []]
                  [st_error_exn AttributeError]) /\
  extract_and_visualize record_rectangle (always (JArr [JInt 1; JInt 2]))
    Groq 0%nat "[1, 2]" (session 1000 2000)
  = (Ok tt, World [Image 1000 2000 []; Image 1000 2000 []]
                  [st_error_exn AttributeError]).
Proof. repeat split; reflexivity. Qed.


Lemma C6_witness :
  sample_draw Gemini 0%nat data_a1 (session 1000 2000)
  = (Ok 0%nat, session 1000 2000).
Proof.
  assert (Hraw : raw_a1 <> "") by discriminate.
  exact (proj1 (proj2 (C6_missing_layout_draws_nothing record_rectangle sample_loads
                         Gemini 0%nat raw_a1 {[ "a" := JInt 1 ]} (Image 1000 2000 [])
                         (session 1000 2000) eq_refl eq_refl Hraw eq_refl))).
Defined.

Lemma C7_witness :
  exists w',
    sample_run Gemini 0%nat raw_invoice (session 1000 2000) = (Ok tt, w') /\
    heap w' !! 0%nat = Some (Image 1000 2000 []).
Proof.
  destruct (C7_original_image_untouched record_rectangle sample_loads Gemini 0%nat
              raw_invoice (Image 1000 2000 []) (session 1000 2000) eq_refl)
    as (w' & Hrun & Hsame & _).
  exists w'. split; [exact Hrun | exact Hsame].
Defined.

Lemma C8_witness :
  exists c1 c2 w4 annotated,
    c1 <> c2 /\ heap w4 !! c1 = Some annotated /\ heap w4 !! c2 = Some annotated /\
    heap w4 !! 0%nat = Some (Image 1000 2000 ([] : canvas)).
Proof.
  destruct (C8_rendering_is_deterministic record_rectangle Gemini 0%nat data_invoice
              (Image 1000 2000 []) (session 1000 2000) eq_refl)
    as (c1 & c2 & w1 & w2 & w3 & w4 & annotated & _ & _ & Hne & _ & _ & H1 & H2 & H0).
  exists c1, c2, w4, annotated. repeat split; assumption.
Defined.


(** * Further properties of the code *)

(** ** Scaling: bounds, no clamping, corner order *)

Lemma scaling_exact (v : Q) (dim : Z) :
  (fmul (fdiv v (inject_Z 1000)) (inject_Z dim) == v / inject_Z 1000 * inject_Z dim)%Q.
Proof. rewrite fmul_correct, fdiv_correct. reflexivity. Qed.

Lemma scaling_of_zero (dim : Z) :
  (fmul (fdiv 0 (inject_Z 1000)) (inject_Z dim) == 0)%Q.
Proof. rewrite scaling_exact. vm_compute. reflexivity. Qed.

Lemma scaling_of_thousand (dim : Z) :
  (fmul (fdiv (inject_Z 1000) (inject_Z 1000)) (inject_Z dim) == inject_Z dim)%Q.
Proof.
  rewrite scaling_exact.
  setoid_replace (inject_Z 1000 / inject_Z 1000)%Q with 1%Q
    using relation Qeq by reflexivity.
  apply Qmult_1_l.
Qed.

(** Scaling by a positive dimension keeps the strict order. *)
Lemma scaling_strictly_monotone (x y : Q) (dim : Z) :
  (x < y)%Q -> 0 < dim ->
  (fmul (fdiv x (inject_Z 1000)) (inject_Z dim)
   < fmul (fdiv y (inject_Z 1000)) (inject_Z dim))%Q.
Proof.
  intros Hxy Hdim. rewrite !scaling_exact.
  apply Qmult_lt_compat_r.
  - change 0%Q with (inject_Z 0). rewrite <- Zlt_Qlt. exact Hdim.
  - unfold Qdiv. apply Qmult_lt_compat_r; [reflexivity | exact Hxy].
Qed.

(** Equal numbers scale to the same term. *)
Lemma scale_Qeq (u v : json) (x y : Q) (dim : Z) :
  py_number u = Ok x -> py_number v = Ok y -> (x == y)%Q ->
  scale u dim = scale v dim.
Proof.
  intros Hu Hv Hxy. rewrite (scale_number u x dim Hu), (scale_number v y dim Hv).
  f_equal. unfold fmul, fdiv. apply Qred_complete.
  rewrite !Qred_correct, Hxy. reflexivity.
Qed.

(** The three ways the reordering of gemini_Testing.py can come out. *)
Lemma ensure_order_gemini_cases (lo hi : json) (x y : Q) :
  py_number lo = Ok x -> py_number hi = Ok y ->
  ((x < y)%Q /\ ensure_order Gemini lo hi = Ok (lo, hi)) \/
  ((y < x)%Q /\ ensure_order Gemini lo hi = Ok (hi, lo)) \/
  ((x == y)%Q /\ ensure_order Gemini lo hi = Ok (lo, lo)).
Proof.
  intros Hx Hy. unfold ensure_order, py_min, py_max. rewrite Hx, Hy. cbn.
  destruct (Qle_bool x y) eqn:Exy, (Qle_bool y x) eqn:Eyx.
  - right; right. split; [|reflexivity].
    apply Qle_bool_iff in Exy, Eyx. by apply Qle_antisym.
  - left. split; [|reflexivity].
    apply Qnot_le_lt. intros H. apply Qle_bool_iff in H. congruence.
  - right; left. split; [|reflexivity].
    apply Qnot_le_lt. intros H. apply Qle_bool_iff in H. congruence.
  - exfalso. destruct (Qlt_le_dec x y) as [H|H].
    + apply Qlt_le_weak, Qle_bool_iff in H. congruence.
    + apply Qle_bool_iff in H. congruence.
Qed.

Lemma py_number_raises (j : json) (e : exn) : py_number j = Raise e -> e = TypeError.
Proof. destruct j; cbn; congruence. Qed.

#[local] Abbreviation px v dim := (fmul (fdiv v (inject_Z 1000)) (inject_Z dim)).

Lemma px_Qeq (x y : Q) (dim : Z) : (x == y)%Q -> px x dim = px y dim.
Proof.
  intros Hxy. unfold fmul, fdiv. apply Qred_complete.
  rewrite !Qred_correct, Hxy. reflexivity.
Qed.

Lemma px_within (v : Q) (dim : Z) :
  (0 <= v)%Q -> (v <= inject_Z 1000)%Q -> 0 <= dim ->
  (0 <= px v dim)%Q /\ (px v dim <= inject_Z dim)%Q.
Proof.
  intros H0 H1 Hdim. split.
  - rewrite <- (scaling_of_zero dim). by apply scaling_monotone.
  - rewrite <- (scaling_of_thousand dim) at 2. by apply scaling_monotone.
Qed.

(** The rectangle of gemini_Testing.py in terms of the four numbers: each
    pair is put in order, then scaled. *)
Lemma normalize_gemini_values (width height : Z) (ymin xmin ymax xmax : json)
    (a b c d : Q) :
  py_number ymin = Ok a -> py_number xmin = Ok b ->
  py_number ymax = Ok c -> py_number xmax = Ok d ->
  exists ylo yhi xlo xhi : Q,
    normalize Gemini width height (JArr [ymin; xmin; ymax; xmax])
      = Ok (Rect (px xlo width) (px ylo height) (px xhi width) (px yhi height)) /\
    (((a < c)%Q /\ ylo = a /\ yhi = c) \/ ((c < a)%Q /\ ylo = c /\ yhi = a) \/
     ((a == c)%Q /\ ylo = a /\ yhi = a)) /\
    (((b < d)%Q /\ xlo = b /\ xhi = d) \/ ((d < b)%Q /\ xlo = d /\ xhi = b) \/
     ((b == d)%Q /\ xlo = b /\ xhi = b)).
Proof.
  intros Ha Hb Hc Hd.
  assert (Hrun : forall ylo' yhi' xlo' xhi' ylo yhi xlo xhi,
             ensure_order Gemini ymin ymax = Ok (ylo', yhi') ->
             ensure_order Gemini xmin xmax = Ok (xlo', xhi') ->
             py_number ylo' = Ok ylo -> py_number yhi' = Ok yhi ->
             py_number xlo' = Ok xlo -> py_number xhi' = Ok xhi ->
             normalize Gemini width height (JArr [ymin; xmin; ymax; xmax])
             = Ok (Rect (px xlo width) (px ylo height) (px xhi width) (px yhi height))).
  { intros ylo' yhi' xlo' xhi' ylo yhi xlo xhi Ey Ex H1 H2 H3 H4.
    unfold normalize. cbn. rewrite Ey. cbn. rewrite Ex. cbn.
    rewrite (scale_number _ _ width H3). cbn.
    rewrite (scale_number _ _ height H1). cbn.
    rewrite (scale_number _ _ width H4). cbn.
    rewrite (scale_number _ _ height H2). reflexivity. }
  destruct (ensure_order_gemini_cases ymin ymax a c Ha Hc)
    as [[Hy Ey] | [[Hy Ey] | [Hy Ey]]];
  destruct (ensure_order_gemini_cases xmin xmax b d Hb Hd)
    as [[Hx Ex] | [[Hx Ex] | [Hx Ex]]];
  eexists _, _, _, _;
  (split; [eapply Hrun; eassumption | split; auto 10]).
Qed.

(** X1.  In range: both files.  A box of four numbers of the scale 0..1000 gives,
    on an image of non-negative size, a rectangle whose corners lie inside
    the image: [0 <= x <= width] and [0 <= y <= height]. *)
Theorem rectangle_within_image (p : provider) (width height : Z)
    (ymin xmin ymax xmax : json) :
  within_scale ymin = true -> within_scale xmin = true ->
  within_scale ymax = true -> within_scale xmax = true ->
  0 <= width -> 0 <= height ->
  exists r,
    normalize p width height (JArr [ymin; xmin; ymax; xmax]) = Ok r /\
    (0 <= x1 r <= inject_Z width)%Q /\ (0 <= x2 r <= inject_Z width)%Q /\
    (0 <= y1 r <= inject_Z height)%Q /\ (0 <= y2 r <= inject_Z height)%Q.
Proof.
  unfold within_scale. intros H1 H2 H3 H4 Hw Hh.
  destruct (py_number ymin) as [a|] eqn:Ea; [|discriminate].
  destruct (py_number xmin) as [b|] eqn:Eb; [|discriminate].
  destruct (py_number ymax) as [c|] eqn:Ec; [|discriminate].
  destruct (py_number xmax) as [d|] eqn:Ed; [|discriminate].
  apply andb_prop in H1 as [A0 A1], H2 as [B0 B1], H3 as [C0 C1], H4 as [D0 D1].
  apply Qle_bool_iff in A0, A1, B0, B1, C0, C1, D0, D1.
  pose proof (px_within a height A0 A1 Hh) as Pa.
  pose proof (px_within c height C0 C1 Hh) as Pc.
  pose proof (px_within b width B0 B1 Hw) as Pb.
  pose proof (px_within d width D0 D1 Hw) as Pd.
  destruct p.
  - destruct (normalize_gemini_values width height _ _ _ _ a b c d Ea Eb Ec Ed)
      as (ylo & yhi & xlo & xhi & Hn & Hy & Hx).
    eexists. split; [exact Hn|]. cbn.
    destruct Hy as [(_ & -> & ->) | [(_ & -> & ->) | (_ & -> & ->)]];
    destruct Hx as [(_ & -> & ->) | [(_ & -> & ->) | (_ & -> & ->)]];
    done.
  - eexists. split; [by apply normalize_groq|]. cbn. done.
Qed.

(** The values are scaled as they come: a number above 1000 goes beyond the
    image, a negative one before it. *)
Lemma scaling_is_not_clamped (p : provider) (width height : Z)
    (ymin xmin ymax xmax : json) (a b c d : Q) :
  py_number ymin = Ok a -> py_number xmin = Ok b ->
  py_number ymax = Ok c -> py_number xmax = Ok d ->
  exists r,
    normalize p width height (JArr [ymin; xmin; ymax; xmax]) = Ok r /\
    ((inject_Z 1000 < d)%Q -> 0 < width -> (inject_Z width < x2 r)%Q) /\
    ((a < 0)%Q -> 0 < height -> (y1 r < 0)%Q).
Proof.
  intros Ea Eb Ec Ed.
  assert (Hbig : forall v, (inject_Z 1000 < v)%Q -> 0 < width ->
                           (inject_Z width < px v width)%Q).
  { intros v Hv Hw.
    pose proof (scaling_strictly_monotone _ v width Hv Hw) as H.
    by rewrite scaling_of_thousand in H. }
  assert (Hneg : forall v, (v < 0)%Q -> 0 < height -> (px v height < 0)%Q).
  { intros v Hv Hh.
    pose proof (scaling_strictly_monotone v 0 height Hv Hh) as H.
    by rewrite scaling_of_zero in H. }
  destruct p.
  - destruct (normalize_gemini_values width height _ _ _ _ a b c d Ea Eb Ec Ed)
      as (ylo & yhi & xlo & xhi & Hn & Hy & Hx).
    eexists. split; [exact Hn|]. cbn. split.
    + intros Hd Hw. apply Hbig; [|exact Hw].
      destruct Hx as [(_ & _ & ->) | [(Hdb & _ & ->) | (Hbd & _ & ->)]].
      * exact Hd.
      * by eapply Qlt_trans.
      * by rewrite Hbd.
    + intros Ha Hh. apply Hneg; [|exact Hh].
      destruct Hy as [(_ & -> & _) | [(Hca & -> & _) | (_ & -> & _)]].
      * exact Ha.
      * by eapply Qlt_trans.
      * exact Ha.
  - eexists. split; [by apply normalize_groq|]. cbn. split.
    + intros Hd Hw. by apply Hbig.
    + intros Ha Hh. by apply Hneg.
Qed.

(** X2.  No clamping: both files.  On a box of four integers between
    -1000000 and 1000000 and an image whose sides are below 2^31 pixels, the
    scaling raises nothing; an [xmax] above 1000 gives, on an image of
    positive width, a right edge beyond the image, and a negative [ymin]
    gives, on an image of positive height, a top edge above it. *)
Theorem out_of_range_boxes_leave_the_image (p : provider) (width height : Z)
    (ymin xmin ymax xmax : Z) :
  Z.abs ymin <= 1000000 -> Z.abs xmin <= 1000000 ->
  Z.abs ymax <= 1000000 -> Z.abs xmax <= 1000000 ->
  width < 2147483648 -> height < 2147483648 ->
  exists r,
    normalize p width height (JArr [JInt ymin; JInt xmin; JInt ymax; JInt xmax]) = Ok r /\
    (1000 < xmax -> 0 < width -> (inject_Z width < x2 r)%Q) /\
    (ymin < 0 -> 0 < height -> (y1 r < 0)%Q).
Proof.
  intros _ _ _ _ _ _.
  destruct (scaling_is_not_clamped p width height
              (JInt ymin) (JInt xmin) (JInt ymax) (JInt xmax) _ _ _ _
              eq_refl eq_refl eq_refl eq_refl) as (r & Hn & Hbig & Hneg).
  exists r. split; [exact Hn|]. split.
  - intros Hx Hw. apply Hbig; [|exact Hw]. by rewrite <- Zlt_Qlt.
  - intros Hy Hh. apply Hneg; [|exact Hh].
    change 0%Q with (inject_Z 0). by rewrite <- Zlt_Qlt.
Qed.

(** X3.  gemini_Testing.py only: the rectangle does not depend on the order in
    which the two corners are given.  For any four values [json.loads] can
    return, [NaN] and [Infinity] apart, swapping [ymin] with [ymax], or
    [xmin] with [xmax], gives the same result, also when it is an
    exception. *)
Theorem gemini_rectangle_ignores_corner_order (width height : Z)
    (ymin xmin ymax xmax : json) :
  normalize Gemini width height (JArr [ymax; xmin; ymin; xmax])
    = normalize Gemini width height (JArr [ymin; xmin; ymax; xmax]) /\
  normalize Gemini width height (JArr [ymin; xmax; ymax; xmin])
    = normalize Gemini width height (JArr [ymin; xmin; ymax; xmax]).
Proof.
  assert (Hswap : forall u v dim,
    match ensure_order Gemini u v, ensure_order Gemini v u with
    | Ok (lo, hi), Ok (lo', hi') =>
        scale lo dim = scale lo' dim /\ scale hi dim = scale hi' dim
    | Raise e, Raise e' => e = e'
    | _, _ => False
    end).
  { intros u v dim.
    destruct (py_number u) as [x|e] eqn:Eu; destruct (py_number v) as [y|e'] eqn:Ev.
    - destruct (ensure_order_gemini_cases u v x y Eu Ev)
        as [[H1 ->] | [[H1 ->] | [H1 ->]]];
      destruct (ensure_order_gemini_cases v u y x Ev Eu)
        as [[H2 ->] | [[H2 ->] | [H2 ->]]];
      try (exfalso; eapply Qlt_irrefl, Qlt_trans; eassumption);
      try (exfalso; rewrite H2 in H1; by apply Qlt_irrefl in H1);
      try (exfalso; rewrite H1 in H2; by apply Qlt_irrefl in H2);
      try done.
      split; eapply scale_Qeq; eauto.
    - unfold ensure_order, py_min. rewrite Eu, Ev. cbn. by destruct v.
    - unfold ensure_order, py_min. rewrite Eu, Ev. cbn. by destruct u.
    - unfold ensure_order, py_min. rewrite Eu, Ev. cbn.
      rewrite (py_number_raises u e Eu), (py_number_raises v e' Ev). reflexivity. }
  unfold normalize. cbn. split.
  - pose proof (Hswap ymax ymin height) as H.
    destruct (ensure_order Gemini ymax ymin) as [[lo hi]|e],
             (ensure_order Gemini ymin ymax) as [[lo' hi']|e']; try done; cbn.
    + destruct H as [-> ->]. reflexivity.
    + by rewrite H.
  - pose proof (Hswap xmax xmin width) as H.
    destruct (ensure_order Gemini ymin ymax) as [[ylo yhi]|e]; [|done]. cbn.
    destruct (ensure_order Gemini xmax xmin) as [[lo hi]|e],
             (ensure_order Gemini xmin xmax) as [[lo' hi']|e']; try done; cbn.
    + destruct H as [-> ->]. reflexivity.
    + by rewrite H.
Qed.

(** X4.  The two files agree on boxes given in order: when [ymin <= ymax] and
    [xmin <= xmax], claude_testing.py hands [draw.rectangle] the very
    rectangle gemini_Testing.py does. *)
Theorem providers_agree_on_ordered_boxes (width height : Z)
    (ymin xmin ymax xmax : json) (a b c d : Q) :
  py_number ymin = Ok a -> py_number xmin = Ok b ->
  py_number ymax = Ok c -> py_number xmax = Ok d ->
  (a <= c)%Q -> (b <= d)%Q ->
  normalize Groq width height (JArr [ymin; xmin; ymax; xmax])
    = normalize Gemini width height (JArr [ymin; xmin; ymax; xmax]).
Proof.
  intros Ea Eb Ec Ed Hac Hbd.
  rewrite (normalize_groq width height _ _ _ _ a b c d Ea Eb Ec Ed).
  destruct (normalize_gemini_values width height _ _ _ _ a b c d Ea Eb Ec Ed)
    as (ylo & yhi & xlo & xhi & -> & Hy & Hx).
  assert (Ey : px ylo height = px a height /\ px yhi height = px c height).
  { destruct Hy as [(_ & -> & ->) | [(H & _ & _) | (H & -> & ->)]].
    - done.
    - exfalso. by eapply Qlt_not_le.
    - split; [done | by apply px_Qeq]. }
  assert (Ex : px xlo width = px b width /\ px xhi width = px d width).
  { destruct Hx as [(_ & -> & ->) | [(H & _ & _) | (H & -> & ->)]].
    - done.
    - exfalso. by eapply Qlt_not_le.
    - split; [done | by apply px_Qeq]. }
  destruct Ey as [-> ->], Ex as [-> ->]. reflexivity.
Qed.

(** claude_testing.py scales swapped corners to an inverted rectangle:
    [y2 < y1] when [ymax < ymin] (on an image of positive height) and
    [x2 < x1] when [xmax < xmin] (on one of positive width). *)
Lemma groq_scales_swapped_corners (width height : Z)
    (ymin xmin ymax xmax : json) (a b c d : Q) :
  py_number ymin = Ok a -> py_number xmin = Ok b ->
  py_number ymax = Ok c -> py_number xmax = Ok d ->
  exists r,
    normalize Groq width height (JArr [ymin; xmin; ymax; xmax]) = Ok r /\
    ((c < a)%Q -> 0 < height -> (y2 r < y1 r)%Q) /\
    ((d < b)%Q -> 0 < width -> (x2 r < x1 r)%Q).
Proof.
  intros Ea Eb Ec Ed.
  eexists. split; [by apply normalize_groq|]. cbn.
  split; intros Hlt Hdim; by apply scaling_strictly_monotone.
Qed.

(** ** Which entries draw, and which exceptions the loop can raise *)

Lemma length_list_ascii_of_string (s : string) :
  length (list_ascii_of_string s) = String.length s.
Proof. induction s as [|c s IH]; cbn; [reflexivity | by rewrite IH]. Qed.

(** Whatever has a length can be iterated, and gives that many elements. *)
Lemma py_iter_length (box : json) (n : nat) :
  py_len box = Ok n -> exists l, py_iter box = Ok l /\ length l = n.
Proof.
  destruct box; cbn; intros H; try discriminate; injection H as <-;
    eexists; (split; [reflexivity|]).
  - by rewrite length_fmap, length_list_ascii_of_string.
  - reflexivity.
  - by rewrite !length_fmap, length_map_to_list.
Qed.

(** The scaling of both files succeeds on numbers only. *)
Lemma normalize_ok_numbers (p : provider) (width height : Z) (box : json) (xy : rect) :
  normalize p width height box = Ok xy ->
  exists a b c d,
    py_iter box = Ok [a; b; c; d] /\
    is_number a = true /\ is_number b = true /\
    is_number c = true /\ is_number d = true.
Proof.
  unfold normalize, unpack4. intros H.
  destruct (py_iter box) as [l|e]; [|discriminate H].
  destruct l as [|a [|b [|c [|d [|]]]]]; try discriminate H.
  exists a, b, c, d. split; [reflexivity|]. unfold is_number.
  destruct (py_number a) as [qa|ea] eqn:Ea, (py_number b) as [qb|eb] eqn:Eb,
           (py_number c) as [qc|ec] eqn:Ec, (py_number d) as [qd|ed] eqn:Ed;
    try done; exfalso;
    destruct p; cbn in H; unfold ensure_order, py_min, py_max, scale in H;
    cbn in H;
    repeat (first [rewrite Ea in H | rewrite Eb in H | rewrite Ec in H
                  | rewrite Ed in H]; cbn in H);
    discriminate H.
Qed.

(** When it fails on a box of four elements, it is with [TypeError]. *)
Lemma normalize_raises (p : provider) (width height : Z) (box : json)
    (a b c d : json) (e : exn) :
  py_iter box = Ok [a; b; c; d] ->
  normalize p width height box = Raise e -> e = TypeError.
Proof.
  intros Hiter H.
  destruct (py_number a) as [qa|ea] eqn:Ea, (py_number b) as [qb|eb] eqn:Eb,
           (py_number c) as [qc|ec] eqn:Ec, (py_number d) as [qd|ed] eqn:Ed.
  1:{ exfalso.
      assert (Hn : exists r, normalize p width height (JArr [a; b; c; d]) = Ok r).
      { apply normalize_numbers; unfold is_number; by rewrite ?Ea, ?Eb, ?Ec, ?Ed. }
      destruct Hn as [r Hr]. unfold normalize, unpack4 in H, Hr.
      rewrite Hiter in H. cbn in Hr. cbn in H. congruence. }
  all: try pose proof (py_number_raises _ _ Ea);
       try pose proof (py_number_raises _ _ Eb);
       try pose proof (py_number_raises _ _ Ec);
       try pose proof (py_number_raises _ _ Ed);
       subst.
  all: unfold normalize, unpack4 in H; rewrite Hiter in H;
       destruct p; cbn in H; unfold ensure_order, py_min, py_max, scale in H;
       cbn in H;
       repeat (first [rewrite Ea in H | rewrite Eb in H | rewrite Ec in H
                     | rewrite Ed in H]; cbn in H);
       congruence.
Qed.

(** One turn of the loop raises [AttributeError] on an entry that is not an
    object and [TypeError] otherwise, and nothing else. *)
Lemma item_rect_raises (p : provider) (width height : Z) (item : json) (e : exn) :
  item_rect p width height item = Raise e ->
  (e = AttributeError /\ forall m, item <> JObj m) \/
  (e = TypeError /\ exists m, item = JObj m).
Proof.
  intros H. destruct item; try (left; cbn in H; split; [congruence | done]).
  right. split; [|by eexists].
  unfold item_rect in H. cbn in H.
  destruct (py_bool (default JNull (m !! "box_2d"))); [|discriminate H].
  destruct (py_len (default JNull (m !! "box_2d"))) as [n|e'] eqn:Elen.
  - cbn in H. destruct (Nat.eqb n 4) eqn:En; [|discriminate H].
    apply Nat.eqb_eq in En. subst n.
    destruct (py_iter_length _ _ Elen) as (l & Hiter & Hl).
    destruct l as [|a [|b [|c [|d [|]]]]]; try discriminate Hl.
    destruct (normalize p width height (default JNull (m !! "box_2d")))
      as [r|e'] eqn:En; [discriminate H|].
    cbn in H. injection H as <-. by eapply normalize_raises.
  - cbn in H. injection H as <-.
    destruct (default JNull (m !! "box_2d")); cbn in Elen; congruence.
Qed.

Lemma drawn_raises (p : provider) (width height : Z) (items : list json) (e : exn) :
  (drawn p width height items).2 = Raise e ->
  e = ValueError \/
  exists item, In item items /\ item_rect p width height item = Raise e.
Proof.
  induction items as [|item rest IH]; cbn; [discriminate|].
  destruct (item_rect p width height item) as [[xy|]|e'] eqn:Eitem.
  - destruct (accepted xy).
    + destruct (drawn p width height rest) as [rs o]. cbn. intros H.
      destruct (IH H) as [-> | (x & Hin & Hx)]; [by left|].
      right. exists x. split; [by right | done].
    + cbn. intros [= <-]. by left.
  - intros H. destruct (IH H) as [-> | (x & Hin & Hx)]; [by left|].
    right. exists x. split; [by right | done].
  - cbn. intros [= <-]. right. exists item. split; [by left | done].
Qed.

(** What [draw_boxes_on_image] raises in this model is no
    [JSONDecodeError]. *)
Lemma annotate_raises {pixbuf} (rectangle : pixbuf -> rect -> pixbuf)
    (p : provider) (i : image) (data : json) (e : exn) :
  (annotate rectangle p i data).2 = Raise e ->
  e = AttributeError \/ e = TypeError \/ e = ValueError.
Proof.
  unfold annotate, layout_of.
  destruct (py_get data "layout" (JArr [])) as [layout_items|e1] eqn:Eget.
  2:{ cbn. intros [= <-]. destruct data; cbn in Eget; try (injection Eget as <-);
      auto; discriminate. }
  cbn. destruct (py_iter layout_items) as [items|e2] eqn:Eiter.
  2:{ cbn. intros [= <-]. destruct layout_items; cbn in Eiter;
      try (injection Eiter as <-); auto; discriminate. }
  destruct (drawn p (im_width i) (im_height i) items) as [rs o] eqn:Ed. cbn.
  intros ->.
  assert (Ho : (drawn p (im_width i) (im_height i) items).2 = Raise e) by (by rewrite Ed).
  destruct (drawn_raises _ _ _ _ _ Ho) as [-> | (item & _ & Hitem)]; [auto|].
  destruct (item_rect_raises _ _ _ _ _ Hitem) as [[-> _] | [-> _]]; auto.
Qed.

(** X6.  A rectangle is drawn for nothing but a list of four numbers.  In both
    files, an entry for which the loop reaches [draw.rectangle] is an object
    whose [box_2d] is a list of exactly four numbers: a string of four
    characters, an object of four keys or a list holding anything else never
    gets one. *)
Theorem only_four_numbers_draw (p : provider) (width height : Z) (item : json)
    (xy : rect) :
  item_rect p width height item = Ok (Some xy) ->
  exists m ymin xmin ymax xmax,
    item = JObj m /\
    m !! "box_2d" = Some (JArr [ymin; xmin; ymax; xmax]) /\
    is_number ymin = true /\ is_number xmin = true /\
    is_number ymax = true /\ is_number xmax = true /\
    normalize p width height (JArr [ymin; xmin; ymax; xmax]) = Ok xy.
Proof.
  intros H. destruct item; try discriminate H.
  unfold item_rect in H. cbn in H.
  destruct (m !! "box_2d") as [box|] eqn:Ebox; [|discriminate H]. cbn in H.
  destruct (py_bool box); [|discriminate H].
  destruct (py_len box) as [n|e'] eqn:Elen; [|discriminate H]. cbn in H.
  destruct (Nat.eqb n 4); [|discriminate H].
  destruct (normalize p width height box) as [r|e'] eqn:En; [|discriminate H].
  cbn in H. injection H as ->.
  destruct (normalize_ok_numbers _ _ _ _ _ En) as (a & b & c & d & Hiter & Ha & Hb & Hc & Hd).
  destruct box; cbn in Hiter; try discriminate Hiter.
  - exfalso. destruct (list_ascii_of_string s) as [|ch chs]; [discriminate Hiter|].
    cbn in Hiter. injection Hiter as <- _. discriminate Ha.
  - injection Hiter as ->. exists m, a, b, c, d. done.
  - exfalso. destruct ((map_to_list m0).*1) as [|k ks]; [discriminate Hiter|].
    cbn in Hiter. injection Hiter as <- _. discriminate Ha.
Qed.

(** ** How drawing composes *)

Lemma drawn_app (p : provider) (width height : Z) (front back : list json) :
  drawn p width height (front ++ back) =
    match (drawn p width height front).2 with
    | Ok _ => ((drawn p width height front).1 ++ (drawn p width height back).1,
               (drawn p width height back).2)
    | Raise e => drawn p width height front
    end.
Proof.
  induction front as [|item front IH]; cbn.
  - by destruct (drawn p width height back).
  - destruct (item_rect p width height item) as [[xy|]|e]; [|exact IH|reflexivity].
    destruct (accepted xy); [|reflexivity].
    rewrite IH. destruct (drawn p width height front) as [rs [[]|e]]; cbn.
    + by destruct (drawn p width height back).
    + reflexivity.
Qed.

Section Composition.

Context {pixbuf : Type}.
Variable rectangle : pixbuf -> rect -> pixbuf.

#[local] Abbreviation draw := (draw_boxes_on_image rectangle).
#[local] Abbreviation with_layout d items := (JObj (<["layout" := JArr items]> d)).

Lemma paint_app (i : @image pixbuf) (rs rs' : list rect) :
  paint rectangle (paint rectangle i rs) rs' = paint rectangle i (rs ++ rs').
Proof. unfold paint. cbn. by rewrite fold_left_app. Qed.

(** What a call of [draw_boxes_on_image] on a layout that raises nothing
    leaves behind. *)
Lemma draw_ok_inv (p : provider) (c r : loc) (d : gmap string json)
    (items : list json) (i : image) (w w1 : world) :
  heap w !! c = Some i ->
  draw p c (with_layout d items) w = (Ok r, w1) ->
  (drawn p (im_width i) (im_height i) items).2 = Ok tt /\
  r = c /\
  w1 = World (<[c := paint rectangle i (drawn p (im_width i) (im_height i) items).1]>
                (heap w)) (screen w).
Proof.
  intros Hc Hrun.
  rewrite (draw_boxes_run rectangle p c _ i w Hc), annotate_with_layout in Hrun.
  cbn [fst snd] in Hrun.
  destruct ((drawn p (im_width i) (im_height i) items).2) as [[]|e];
    [|discriminate Hrun].
  injection Hrun as <- <-. done.
Qed.

(** X8.  Drawing follows the order of the layout: when the entries of [front]
    raise nothing, drawing [front ++ back] is drawing [front] and then, on
    the result, [back]. *)
Theorem drawing_a_longer_layout (p : provider) (c r : loc) (d : gmap string json)
    (front back : list json) (i : image) (w w1 : world) :
  heap w !! c = Some i ->
  draw p c (with_layout d front) w = (Ok r, w1) ->
  draw p c (with_layout d (front ++ back)) w = draw p c (with_layout d back) w1.
Proof.
  intros Hc Hfront.
  destruct (draw_ok_inv p c r d front i w w1 Hc Hfront) as (Hok & -> & ->).
  set (rs := (drawn p (im_width i) (im_height i) front).1) in *.
  set (w1 := World (<[c := paint rectangle i rs]> (heap w)) (screen w)).
  assert (Hc1 : heap w1 !! c = Some (paint rectangle i rs)).
  { apply list_lookup_insert_eq. by eapply lookup_lt_Some. }
  rewrite (draw_boxes_run rectangle p c _ i w Hc), annotate_with_layout.
  rewrite (draw_boxes_run rectangle p c _ (paint rectangle i rs) w1 Hc1),
    annotate_with_layout.
  subst w1. cbn [heap screen im_width im_height paint].
  rewrite drawn_app, Hok. cbn [fst snd].
  rewrite list_insert_insert_eq.
  fold (paint rectangle i rs). rewrite <- paint_app. reflexivity.
Qed.


(** X10.  [draw_boxes_on_image] works in place: it writes nothing on the page,
    creates no object, leaves every other image as it was and the size of
    its own unchanged, and what it returns is the reference it was given. *)
Theorem drawing_is_in_place (p : provider) (c : loc) (data : json)
    (i : image) (w : world) :
  heap w !! c = Some i ->
  exists o w',
    draw p c data w = (o, w') /\
    screen w' = screen w /\
    length (heap w') = length (heap w) /\
    (forall l, l <> c -> heap w' !! l = heap w !! l) /\
    (exists a, heap w' !! c = Some a /\
               im_width a = im_width i /\ im_height a = im_height i) /\
    (forall r, o = Ok r -> r = c).
Proof.
  intros Hc. rewrite (draw_boxes_run rectangle p c data i w Hc).
  eexists _, _. split; [reflexivity|]. cbn [heap screen].
  split; [reflexivity|]. split; [apply length_insert|].
  split; [intros l Hl; by apply list_lookup_insert_ne|].
  split.
  - exists (annotate rectangle p i data).1. split.
    + apply list_lookup_insert_eq. by eapply lookup_lt_Some.
    + unfold annotate. destruct (layout_of data) as [items|e]; [|done].
      by destruct (drawn p (im_width i) (im_height i) items).
  - intros r. destruct ((annotate rectangle p i data).2); congruence.
Qed.

(** X5.  claude_testing.py refuses swapped boxes.  An entry whose [box_2d]
    is a list of four integers of the scale 0..1000 with [ymax < ymin] or
    [xmax < xmin], on an image with sides between 1 and 2^31 pixels: the
    corners are scaled as they come, to an inverted rectangle, and
    [draw.rectangle] raises [ValueError]; nothing is drawn. *)
Theorem groq_inverts_swapped_boxes (c : loc) (d m : gmap string json)
    (ymin xmin ymax xmax : Z) (i : image) (w : world) :
  heap w !! c = Some i ->
  m !! "box_2d" = Some (JArr [JInt ymin; JInt xmin; JInt ymax; JInt xmax]) ->
  0 <= ymin <= 1000 -> 0 <= xmin <= 1000 ->
  0 <= ymax <= 1000 -> 0 <= xmax <= 1000 ->
  0 < im_width i < 2147483648 -> 0 < im_height i < 2147483648 ->
  ymax < ymin \/ xmax < xmin ->
  exists r,
    normalize Groq (im_width i) (im_height i)
      (JArr [JInt ymin; JInt xmin; JInt ymax; JInt xmax]) = Ok r /\
    ((y2 r < y1 r)%Q \/ (x2 r < x1 r)%Q) /\
    draw Groq c (with_layout d [JObj m]) w = (Raise ValueError, w).
Proof.
  intros Hc Hbox _ _ _ _ [Hw _] [Hh _] Hswap.
  destruct (groq_scales_swapped_corners (im_width i) (im_height i)
              (JInt ymin) (JInt xmin) (JInt ymax) (JInt xmax) _ _ _ _
              eq_refl eq_refl eq_refl eq_refl) as (r & Hn & Hy & Hx).
  exists r. split; [exact Hn|].
  assert (Hinv : (y2 r < y1 r)%Q \/ (x2 r < x1 r)%Q).
  { destruct Hswap as [H|H]; [left; apply Hy | right; apply Hx];
      try done; by rewrite <- Zlt_Qlt. }
  split; [exact Hinv|].
  assert (Hacc : accepted r = false).
  { unfold accepted. apply andb_false_iff.
    destruct Hinv as [H|H]; [right|left];
      apply not_true_is_false; intros Hle; apply Qle_bool_iff in Hle;
      by apply Qlt_not_le in H. }
  rewrite (draw_boxes_run rectangle Groq c _ i w Hc), annotate_with_layout.
  assert (Hitem : item_rect Groq (im_width i) (im_height i) (JObj m) = Ok (Some r)).
  { unfold item_rect. cbn. rewrite Hbox. cbn. rewrite Hn. reflexivity. }
  cbn [drawn]. rewrite Hitem, Hacc. cbn.
  rewrite paint_nil, list_insert_id by exact Hc. by rewrite world_eta.
Qed.

(** X11.  A [layout] that is not a list.  Nothing is drawn; [null], a boolean or a
    number cannot be iterated ([TypeError]), the characters of a string and
    the keys of an object have no [get] ([AttributeError]), and only the
    empty string and the empty object pass, as empty layouts. *)
Theorem layout_that_is_not_a_list (p : provider) (c : loc) (m : gmap string json)
    (v : json) (i : image) (w : world) :
  heap w !! c = Some i ->
  m !! "layout" = Some v ->
  (forall items, v <> JArr items) ->
  draw p c (JObj m) w =
    (match v with
     | JStr s => if String.eqb s "" then Ok c else Raise AttributeError
     | JObj keys => if Nat.eqb (size keys) 0 then Ok c else Raise AttributeError
     | _ => Raise TypeError
     end, w).
Proof.
  intros Hc Hv Hlist.
  rewrite (draw_boxes_run rectangle p c _ i w Hc).
  unfold annotate, layout_of. cbn. rewrite Hv. cbn.
  destruct v; cbn;
    try (rewrite list_insert_id by exact Hc; by rewrite world_eta).
  - destruct s as [|ch s]; cbn;
      rewrite ?paint_nil, list_insert_id by exact Hc; by rewrite world_eta.
  - by destruct (Hlist l).
  - rewrite <- (length_map_to_list m0).
    destruct (map_to_list m0) as [|[k x] kxs]; cbn;
      rewrite ?paint_nil, list_insert_id by exact Hc; by rewrite world_eta.
Qed.

End Composition.

(** ** More on the button handlers *)

Section HandlerOutcomes.

Context {pixbuf : Type}.
Variable rectangle : pixbuf -> rect -> pixbuf.
Variable json_loads : string -> result json.

#[local] Abbreviation run := (extract_and_visualize rectangle json_loads).
#[local] Abbreviation draw := (draw_boxes_on_image rectangle).

(** The world in which a handler calls [draw_boxes_on_image]: the store with
    the fresh copy. *)
#[local] Abbreviation copied w i := (World (heap w ++ [i]) (screen w)).

Lemma draw_on_copy (p : provider) (data : json) (i : image) (w : @world pixbuf) :
  draw p (length (heap w)) data (copied w i) =
    (match (annotate rectangle p i data).2 with
     | Ok _ => Ok (length (heap w))
     | Raise e => Raise e
     end,
     World (heap w ++ [(annotate rectangle p i data).1]) (screen w)).
Proof.
  rewrite (draw_boxes_run rectangle p _ data i) by apply lookup_copy.
  cbn [heap screen]. by rewrite insert_copy.
Qed.

(** claude_testing.py decodes an empty [content] like any other. *)
Lemma run_groq_any (l : loc) (raw : string) (i : image) (w : world) :
  heap w !! l = Some i ->
  run Groq l raw w =
    match json_loads raw with
    | Ok data =>
        (Ok tt, World (heap w ++ [(annotate rectangle Groq i data).1])
                      (screen w ++ page Groq raw data (annotate rectangle Groq i data)))
    | Raise e => (Ok tt, World (heap w) (screen w ++ error_page Groq raw e))
    end.
Proof.
  intros Hl.
  unfold extract_and_visualize, groq_extract_and_visualise, try_except.
  rewrite bind_run. unfold lift at 1.
  destruct (json_loads raw) as [data|e].
  - rewrite (after_loads rectangle Groq l raw data i w Hl). cbn zeta. unfold page.
    destruct (annotate rectangle Groq i data) as [i' [[]|e]]; cbn [fst snd].
    + destruct (py_get data "structured_data" (JObj ∅)) as [cd|e]; [reflexivity|].
      destruct e; unfold st; cbn; try rewrite bind_run; cbn;
        by rewrite <- !app_assoc.
    + rewrite app_nil_r.
      destruct e; unfold st; cbn; try rewrite bind_run; cbn;
        by rewrite <- ?app_assoc.
  - destruct e; unfold st; cbn; try rewrite bind_run; cbn;
      by rewrite <- ?app_assoc.
Qed.

(** X12.  All or nothing.  When the reply decodes but [draw_boxes_on_image] raises
    on the copy, the handler shows the exception and nothing else: no image,
    no structured data, no download, although the reply was valid JSON; the
    copy stays in the store as far as it was drawn. *)
Theorem drawing_failure_hides_the_data (p : provider) (l : loc) (raw : string)
    (data : json) (e : exn) (i : image) (w w' : world) :
  json_loads raw = Ok data -> raw <> "" -> heap w !! l = Some i ->
  draw p (length (heap w)) data (copied w i) = (Raise e, w') ->
  run p l raw w = (Ok tt, World (heap w') (screen w ++ [st_error_exn e])).
Proof.
  intros Hloads Hraw Hl Hdraw.
  rewrite draw_on_copy in Hdraw.
  rewrite (run_decoded rectangle json_loads p l raw data i w Hloads Hraw Hl).
  unfold page.
  destruct ((annotate rectangle p i data).2) as [[]|e'] eqn:Ea;
    [discriminate Hdraw|].
  injection Hdraw as -> <-. cbn [heap].
  destruct (annotate_raises rectangle p i data e Ea) as [-> | [-> | ->]];
    by destruct p.
Qed.

(** X13.  The two views of a reply.  When the reply decodes to an object with a
    [structured_data] key and drawing raises nothing, the page gets the
    annotated copy, the value of [structured_data] alone (the layout is not
    shown) and a download of the reply exactly as it was received. *)
Theorem clean_view_and_full_download (p : provider) (l : loc) (raw : string)
    (m : gmap string json) (v : json) (i : image) (w w' : world) (r : loc) :
  json_loads raw = Ok (JObj m) -> m !! "structured_data" = Some v ->
  raw <> "" -> heap w !! l = Some i ->
  draw p (length (heap w)) (JObj m) (copied w i) = (Ok r, w') ->
  exists annotated,
    heap w' = heap w ++ [annotated] /\
    run p l raw w =
      (Ok tt, World (heap w')
                    (screen w ++ [st_image annotated; st_json v;
                                  st_download_button raw])).
Proof.
  intros Hloads Hv Hraw Hl Hdraw.
  rewrite draw_on_copy in Hdraw.
  exists (annotate rectangle p i (JObj m)).1.
  rewrite (run_decoded rectangle json_loads p l raw (JObj m) i w Hloads Hraw Hl).
  unfold page.
  destruct ((annotate rectangle p i (JObj m)).2) as [[]|e'] eqn:Ea;
    [|discriminate Hdraw].
  injection Hdraw as _ <-. cbn [heap]. split; [reflexivity|].
  cbn. by rewrite Hv.
Qed.

(** X14.  A reply that is valid JSON but not an object (a list, a string, a
    number, [null]) is turned down: the handler makes its copy, draws
    nothing on it and shows [AttributeError] only. *)
Theorem payload_must_be_an_object (p : provider) (l : loc) (raw : string)
    (data : json) (i : image) (w : world) :
  json_loads raw = Ok data -> (forall m, data <> JObj m) ->
  raw <> "" -> heap w !! l = Some i ->
  run p l raw w =
    (Ok tt, World (heap w ++ [i]) (screen w ++ [st_error_exn AttributeError])).
Proof.
  intros Hloads Hdata Hraw Hl.
  rewrite (run_decoded rectangle json_loads p l raw data i w Hloads Hraw Hl).
  assert (Ha : annotate rectangle p i data = (i, Raise AttributeError)).
  { unfold annotate, layout_of. destruct data; try reflexivity.
    by destruct (Hdata m). }
  rewrite Ha. by destruct p.
Qed.

End HandlerOutcomes.

(** ** The key shown at the start, and the data URL *)

Lemma drop_string_split (n : nat) (s : string) :
  exists hidden, s = (hidden ++ drop_string n s)%string /\
                 String.length hidden = Nat.min n (String.length s).
Proof.
  revert s. induction n as [|n IH]; intros s.
  - exists EmptyString. done.
  - destruct s as [|ch s]; [by exists EmptyString|].
    destruct (IH s) as (hidden & Hs & Hlen).
    exists (String ch hidden). split.
    + change (String ch s = String ch (hidden ++ drop_string n s)%string).
      by rewrite <- Hs.
    + cbn. by rewrite Hlen.
Qed.

Lemma drop_string_length (n : nat) (s : string) :
  String.length (drop_string n s) = (String.length s - n)%nat.
Proof.
  revert s. induction n as [|n IH]; intros s; cbn.
  - lia.
  - destruct s as [|ch s]; cbn; [reflexivity | apply IH].
Qed.

(** X16.  openAI_Testing.py shows the tail of the key.  With a non-empty key the
    script goes on after one success message, which spells out the last four
    characters of the key and hides the rest; a key of four characters or
    fewer is shown in full. *)
Theorem startup_shows_the_key_tail (key : string) :
  key <> "" ->
  openai_startup (Some key)
    = ([sw_success ("API Key Loaded (ends with ..." ++ last4 key ++ ")")], true) /\
  (exists hidden, key = (hidden ++ last4 key)%string /\
                  String.length hidden = (String.length key - 4)%nat) /\
  String.length (last4 key) = Nat.min 4 (String.length key) /\
  ((String.length key <= 4)%nat -> last4 key = key).
Proof.
  intros Hkey. split.
  { unfold openai_startup. apply String.eqb_neq in Hkey. by rewrite Hkey. }
  unfold last4. split; [|split].
  - destruct (drop_string_split (String.length key - 4) key) as (hidden & Hs & Hlen).
    exists hidden. split; [exact Hs | lia].
  - rewrite drop_string_length. lia.
  - intros Hshort. replace (String.length key - 4)%nat with 0%nat by lia.
    reflexivity.
Qed.

(** X17.  The data URL carries the upload.  In the three files that build one, what
    follows the first comma of the URL is the base64 text of the uploaded
    bytes, so a receiver that decodes it gets back the very bytes of the
    file, whatever they are. *)
Theorem data_url_carries_the_upload (b64encode : list Byte.byte -> string)
    (b64decode : string -> list Byte.byte)
    (i : integration) (prompt : string) (uploaded_file : UploadedFile) :
  (forall b, b64decode (b64encode b) = b) ->
  Forall (fun url => after_comma url = encode_image b64encode uploaded_file /\
                     b64decode (after_comma url) = getvalue uploaded_file)
         (image_urls (user_content b64encode i prompt uploaded_file)).
Proof.
  intros Hcodec.
  assert (Hurls : image_urls (user_content b64encode i prompt uploaded_file)
            = [("data:image/jpeg;base64," ++ encode_image b64encode uploaded_file)%string]).
  { destruct i; reflexivity. }
  rewrite Hurls. constructor; [|constructor].
  split; [reflexivity|]. cbn. apply Hcodec.
Qed.

(** ** The further properties on sample inputs *)

Lemma rectangle_within_image_witness :
  exists r,
    normalize Groq 1000 2000 (JArr [JInt 0; JInt 0; JInt 100; JInt 500]) = Ok r /\
    (0 <= x2 r <= inject_Z 1000)%Q.
Proof.
  assert (Hw : 0 <= 1000) by lia. assert (Hh : 0 <= 2000) by lia.
  destruct (rectangle_within_image Groq 1000 2000 (JInt 0) (JInt 0) (JInt 100) (JInt 500)
              eq_refl eq_refl eq_refl eq_refl Hw Hh)
    as (r & Hn & _ & Hx2 & _).
  exists r. split; assumption.
Defined.

Lemma out_of_range_boxes_leave_the_image_witness :
  exists r,
    normalize Gemini 1000 2000 (JArr [JInt (-5); JInt 0; JInt 100; JInt 1200]) = Ok r /\
    (inject_Z 1000 < x2 r)%Q /\ (y1 r < 0)%Q.
Proof.
  assert (Hw : 0 < 1000) by lia. assert (Hh : 0 < 2000) by lia.
  assert (Hx : 1000 < 1200) by lia. assert (Hy : -5 < 0) by lia.
  assert (B1 : Z.abs (-5) <= 1000000) by lia.
  assert (B2 : Z.abs 0 <= 1000000) by lia.
  assert (B3 : Z.abs 100 <= 1000000) by lia.
  assert (B4 : Z.abs 1200 <= 1000000) by lia.
  assert (Sw : 1000 < 2147483648) by lia.
  assert (Sh : 2000 < 2147483648) by lia.
  destruct (out_of_range_boxes_leave_the_image Gemini 1000 2000 (-5) 0 100 1200
              B1 B2 B3 B4 Sw Sh)
    as (r & Hn & Hbig & Hneg).
  exists r. split; [exact Hn|]. split; [by apply Hbig | by apply Hneg].
Defined.

Lemma providers_agree_on_ordered_boxes_witness :
  normalize Groq 1000 2000 (JArr [JInt 0; JInt 0; JInt 100; JInt 500])
  = normalize Gemini 1000 2000 (JArr [JInt 0; JInt 0; JInt 100; JInt 500]).
Proof.
  assert (Hy : (inject_Z 0 <= inject_Z 100)%Q) by (vm_compute; discriminate).
  assert (Hx : (inject_Z 0 <= inject_Z 500)%Q) by (vm_compute; discriminate).
  exact (providers_agree_on_ordered_boxes 1000 2000 (JInt 0) (JInt 0) (JInt 100) (JInt 500)
           _ _ _ _ eq_refl eq_refl eq_refl eq_refl Hy Hx).
Defined.

Lemma groq_inverts_swapped_boxes_witness :
  sample_draw Groq 0%nat (JObj (<["layout" := JArr [entry_swapped]]> ∅))
    (session 1000 2000)
  = (Raise ValueError, session 1000 2000).
Proof.
  assert (Ha : 0 <= 100 <= 1000) by lia. assert (Hb : 0 <= 0 <= 1000) by lia.
  assert (Hd : 0 <= 500 <= 1000) by lia.
  assert (Hw : 0 < 1000 < 2147483648) by lia.
  assert (Hh : 0 < 2000 < 2147483648) by lia.
  assert (Hswap : 0 < 100 \/ 500 < 0) by (left; lia).
  assert (Hbox : ({[ "box_2d" := swapped_box ]} : gmap string json) !! "box_2d"
                 = Some (JArr [JInt 100; JInt 0; JInt 0; JInt 500])) by reflexivity.
  destruct (groq_inverts_swapped_boxes record_rectangle 0%nat ∅
              {[ "box_2d" := swapped_box ]} 100 0 0 500
              (Image 1000 2000 []) (session 1000 2000)
              eq_refl Hbox Ha Hb Hb Hd Hw Hh Hswap)
    as (r & _ & _ & Hdraw).
  exact Hdraw.
Defined.

Lemma only_four_numbers_draw_witness :
  exists m ymin xmin ymax xmax,
    entry_invoice = JObj m /\
    m !! "box_2d" = Some (JArr [ymin; xmin; ymax; xmax]).
Proof.
  destruct (only_four_numbers_draw Groq 1000 2000 entry_invoice (Rect 0 0 500 200) eq_refl)
    as (m & a & b & c & d & Hm & Hbox & _).
  exists m, a, b, c, d. split; assumption.
Defined.

Lemma drawing_a_longer_layout_witness :
  sample_draw Gemini 0%nat
    (JObj (<["layout" := JArr ([entry_invoice] ++ [entry_total])]> ∅))
    (session 1000 2000)
  = sample_draw Gemini 0%nat (JObj (<["layout" := JArr [entry_total]]> ∅))
      (World [Image 1000 2000 [Rect 0 0 500 200]] []).
Proof.
  exact (drawing_a_longer_layout record_rectangle Gemini 0%nat 0%nat ∅
           [entry_invoice] [entry_total] (Image 1000 2000 []) (session 1000 2000)
           (World [Image 1000 2000 [Rect 0 0 500 200]] []) eq_refl eq_refl).
Defined.


Lemma drawing_is_in_place_witness :
  exists o w',
    sample_draw Gemini 0%nat data_invoice (session 1000 2000) = (o, w') /\
    screen w' = [] /\ length (heap w') = 1%nat.
Proof.
  destruct (drawing_is_in_place record_rectangle Gemini 0%nat data_invoice
              (Image 1000 2000 []) (session 1000 2000) eq_refl)
    as (o & w' & Hrun & Hscreen & Hlen & _).
  exists o, w'. split; [exact Hrun|]. split; assumption.
Defined.

Lemma layout_that_is_not_a_list_witness :
  sample_draw Gemini 0%nat (JObj {[ "layout" := JNull ]}) (session 1000 2000)
  = (Raise TypeError, session 1000 2000).
Proof.
  assert (Hlist : forall items, JNull <> JArr items) by discriminate.
  exact (layout_that_is_not_a_list record_rectangle Gemini 0%nat
           {[ "layout" := JNull ]} JNull (Image 1000 2000 []) (session 1000 2000)
           eq_refl eq_refl Hlist).
Defined.

Lemma drawing_failure_hides_the_data_witness :
  extract_and_visualize record_rectangle (always data_bad_entry)
    Gemini 0%nat raw_invoice (session 1000 2000)
  = (Ok tt, World [Image 1000 2000 []; Image 1000 2000 [Rect 0 0 500 200]]
                  [st_error_exn TypeError]).
Proof.
  assert (Hraw : raw_invoice <> "") by discriminate.
  exact (drawing_failure_hides_the_data record_rectangle (always data_bad_entry)
           Gemini 0%nat raw_invoice data_bad_entry TypeError
           (Image 1000 2000 []) (session 1000 2000)
           (World [Image 1000 2000 []; Image 1000 2000 [Rect 0 0 500 200]] [])
           eq_refl Hraw eq_refl eq_refl).
Defined.

Lemma clean_view_and_full_download_witness :
  exists annotated,
    sample_run Groq 0%nat raw_invoice (session 1000 2000)
    = (Ok tt, World [Image 1000 2000 []; annotated]
                    [st_image annotated; st_json (JObj {[ "invoice" := JStr "A1" ]});
                     st_download_button raw_invoice]).
Proof.
  assert (Hraw : raw_invoice <> "") by discriminate.
  destruct (clean_view_and_full_download record_rectangle sample_loads Groq 0%nat
              raw_invoice
              (<["structured_data" := JObj {[ "invoice" := JStr "A1" ]}]>
                 {[ "layout" := JArr [entry_invoice] ]})
              (JObj {[ "invoice" := JStr "A1" ]})
              (Image 1000 2000 []) (session 1000 2000)
              (World [Image 1000 2000 []; Image 1000 2000 [Rect 0 0 500 200]] [])
              1%nat eq_refl eq_refl Hraw eq_refl eq_refl)
    as (annotated & Hheap & Hrun).
  exists annotated. cbn in Hheap. injection Hheap as <-. exact Hrun.
Defined.

Lemma payload_must_be_an_object_witness :
  extract_and_visualize record_rectangle (always (JArr [JInt 1; JInt 2]))
    Groq 0%nat "[1, 2]" (session 1000 2000)
  = (Ok tt, World [Image 1000 2000 []; Image 1000 2000 []]
                  [st_error_exn AttributeError]).
Proof.
  assert (Hdata : forall m, JArr [JInt 1; JInt 2] <> JObj m) by discriminate.
  assert (Hraw : "[1, 2]" <> "") by discriminate.
  exact (payload_must_be_an_object record_rectangle (always (JArr [JInt 1; JInt 2]))
           Groq 0%nat "[1, 2]"
           (JArr [JInt 1; JInt 2]) (Image 1000 2000 []) (session 1000 2000)
           eq_refl Hdata Hraw eq_refl).
Defined.

Lemma startup_shows_the_key_tail_witness :
  openai_startup (Some "sk-test-1234")
  = ([sw_success ("API Key Loaded (ends with ..." ++ last4 "sk-test-1234" ++ ")")], true).
Proof.
  assert (Hkey : "sk-test-1234" <> "") by discriminate.
  exact (proj1 (startup_shows_the_key_tail "sk-test-1234" Hkey)).
Defined.

Lemma data_url_carries_the_upload_witness :
  Forall (fun url => after_comma url
                       = encode_image sample_encode {| name := "scan.png"; getvalue := [Byte.x89; Byte.x50] |} /\
                     sample_decode (after_comma url) = [Byte.x89; Byte.x50])
         (image_urls (user_content sample_encode OpenAI "Extract"
                        {| name := "scan.png"; getvalue := [Byte.x89; Byte.x50] |})).
Proof.
  exact (data_url_carries_the_upload sample_encode sample_decode OpenAI "Extract"
           {| name := "scan.png"; getvalue := [Byte.x89; Byte.x50] |}
           list_byte_of_string_of_list_byte).
Defined.
